(** * The user-session registry of the Gopher Game Server (package [users])

    A shallow embedding of the Go package [users]: the [User] record, the
    package-level registry ([userCount], [users]) and the operations that are
    funnelled through [usersActionChan], together with the orchestration
    methods [Join], [Leave], [LogOut] and [Kick] that talk to the [rooms]
    collaborator.

    Go values live the way the source has them:
    - [users] is a [map[string]*User]: a finite map from names to heap
      locations, and a heap of [User] cells.  Pointers handed to the methods
      ([u *User]) are locations of the same heap, so a caller's pointer may or
      may not alias a registry cell;
    - action parameters and results are [[]interface{}] slices: lists of
      dynamically typed values, indexed and type-asserted, both of which
      panic when they fail;
    - the [rooms] package is an interface with its own state. *)

From Stdlib Require Import ZArith String List Lia.
From stdpp Require Import base option gmap strings list fin_maps.

Local Open Scope Z_scope.
Local Open Scope string_scope.

(** ** Go primitives *)

(** Heap locations: the targets of [*User] pointers. *)
Abbreviation loc := positive.

(** [*websocket.Conn]: an opaque connection handle, [None] is [nil]. *)
Abbreviation Conn := (option positive).

(** A non-nil [error] value, as built by [errors.New]. *)
Inductive error : Type :=
  errors_New (msg : string).

(** Two's complement wrap-around of [int64] arithmetic. *)
Definition int64_wrap (z : Z) : Z := (z + 2 ^ 63) mod 2 ^ 64 - 2 ^ 63.

(** ** The data model *)

Record User : Type := mkUser {
  name : string;
  databaseID : Z;
  isGuest : bool;
  room : string;
  status : Z;
  socket : Conn
}.

(** [User{}]: the zero value. *)
Definition User_zero : User := mkUser "" 0 false "" 0 None.

Definition StatusAvailable : Z := 0.
Definition StatusInGame : Z := 1.
Definition StatusIdle : Z := 2.

Definition set_room (roomName : string) (u : User) : User :=
  mkUser (name u) (databaseID u) (isGuest u) roomName (status u) (socket u).

(** Values of type [interface{}]. *)
Inductive iface : Type :=
| I_nil
| I_string (s : string)
| I_int64 (n : Z)
| I_bool (b : bool)
| I_Conn (c : Conn)
| I_User (u : User)
| I_UserPtr (p : loc)
| I_error (e : error).

(** ** The [rooms] collaborator

    Package [rooms] is not among the sources and is taken as a parameter.
    It keeps its own state and cannot reach the registry ([users] imports
    [rooms], not the other way round); the registry only needs the room
    lookup and three methods of a room.  [AddUser] is handed the address of
    the receiver's name, which it only reads: it is given the name. *)
Class Rooms : Type := {
  Room : Type;
  RoomsState : Type;
  rooms_Get : string -> RoomsState -> RoomsState * (Room * option error);
  Room_Name : Room -> string;
  Room_AddUser : Room -> string -> Conn -> RoomsState -> RoomsState * option error;
  Room_RemoveUser : Room -> string -> RoomsState -> RoomsState * option error
}.

(** The calls made to the collaborator, in the order they were made. *)
Inductive Call : Type :=
| CallGet (roomName : string)
| CallRemoveUser (roomName userName : string)
| CallAddUser (roomName userName : string) (sock : Conn).

Section Registry.
Context `{Rooms}.

(** The package-level variables, the heap they point into, the state of the
    collaborator and the log of calls made to it. *)
Record World : Type := mkWorld {
  userCount : Z;
  users : gmap string loc;
  heap : gmap loc User;
  roomsState : RoomsState;
  calls : list Call
}.

(** ** A state monad with panics *)

Inductive Res (A : Type) : Type :=
| Ok (a : A) (w : World)
| Panic (msg : string).
Arguments Ok {A} a w.
Arguments Panic {A} msg.

Definition M (A : Type) : Type := World -> Res A.

Definition ret {A} (a : A) : M A := fun w => Ok a w.

Definition bind {A B} (m : M A) (k : A -> M B) : M B :=
  fun w => match m w with
           | Ok a w' => k a w'
           | Panic msg => Panic msg
           end.

Definition panic {A} (msg : string) : M A := fun _ => Panic msg.

Notation "x <- m ;; k" := (bind m (fun x => k))
  (at level 100, m at next level, right associativity).
Notation "m ;;; k" := (bind m (fun _ => k))
  (at level 100, right associativity).

(** Slice indexing [p[i]]. *)
Definition index (p : list iface) (i : nat) : M iface :=
  match nth_error p i with
  | Some v => ret v
  | None => panic "index out of range"
  end.

(** Type assertions [v.(T)]. *)
Definition as_string (v : iface) : M string :=
  match v with I_string s => ret s | _ => panic "interface conversion" end.
Definition as_int64 (v : iface) : M Z :=
  match v with I_int64 n => ret n | _ => panic "interface conversion" end.
Definition as_bool (v : iface) : M bool :=
  match v with I_bool b => ret b | _ => panic "interface conversion" end.
Definition as_Conn (v : iface) : M Conn :=
  match v with I_Conn c => ret c | _ => panic "interface conversion" end.
Definition as_User (v : iface) : M User :=
  match v with I_User u => ret u | _ => panic "interface conversion" end.
Definition as_UserPtr (v : iface) : M loc :=
  match v with I_UserPtr p => ret p | _ => panic "interface conversion" end.
Definition as_error (v : iface) : M error :=
  match v with I_error e => ret e | _ => panic "interface conversion" end.

(** [v != nil] on an interface value. *)
Definition is_nil (v : iface) : bool :=
  match v with I_nil => true | _ => false end.

(** An [error] variable stored into an [interface{}]. *)
Definition of_error (e : option error) : iface :=
  match e with Some e => I_error e | None => I_nil end.

(** [*p]: reading through a pointer. *)
Definition load (p : loc) : M User :=
  fun w => match heap w !! p with
           | Some u => Ok u w
           | None => Panic "nil pointer dereference"
           end.

(** [p.f]: reading one field through a pointer. *)
Definition field {A} (f : User -> A) (p : loc) : M A :=
  u <- load p ;; ret (f u).

(** [p.room = roomName] through the pointer [p]. *)
Definition store_room (p : loc) (roomName : string) : M unit :=
  fun w => match heap w !! p with
           | Some u =>
               Ok tt (mkWorld (userCount w) (users w)
                        (<[p := set_room roomName u]> (heap w))
                        (roomsState w) (calls w))
           | None => Panic "nil pointer dereference"
           end.

(** A variable whose address is taken: a fresh cell. *)
Definition new (u : User) : M loc :=
  fun w => let p := fresh (dom (heap w)) in
           Ok p (mkWorld (userCount w) (users w) (<[p := u]> (heap w))
                   (roomsState w) (calls w)).

(** [_, ok := users[k]] (the location found, if any). *)
Definition users_lookup (k : string) : M (option loc) :=
  fun w => Ok (users w !! k) w.

(** [users[k]] used as a pointer: a missing key yields [nil]. *)
Definition users_at (k : string) : M loc :=
  fun w => match users w !! k with
           | Some p => Ok p w
           | None => Panic "nil pointer dereference"
           end.

(** [users[k] = p]. *)
Definition users_store (k : string) (p : loc) : M unit :=
  fun w => Ok tt (mkWorld (userCount w) (<[k := p]> (users w)) (heap w)
                    (roomsState w) (calls w)).

(** [delete(users, k)]. *)
Definition users_delete (k : string) : M unit :=
  fun w => Ok tt (mkWorld (userCount w) (delete k (users w)) (heap w)
                    (roomsState w) (calls w)).

(** [userCount++]. *)
Definition userCount_incr : M unit :=
  fun w => Ok tt (mkWorld (int64_wrap (userCount w + 1)) (users w) (heap w)
                    (roomsState w) (calls w)).

(** Calls into package [rooms]; each one is logged. *)
Definition call_rooms_Get (roomName : string) : M (Room * option error) :=
  fun w => let '(s, r) := rooms_Get roomName (roomsState w) in
           Ok r (mkWorld (userCount w) (users w) (heap w) s
                   (calls w ++ [CallGet roomName])).

Definition call_RemoveUser (r : Room) (userName : string) : M (option error) :=
  fun w => let '(s, e) := Room_RemoveUser r userName (roomsState w) in
           Ok e (mkWorld (userCount w) (users w) (heap w) s
                   (calls w ++ [CallRemoveUser (Room_Name r) userName])).

Definition call_AddUser (r : Room) (userName : string) (sock : Conn)
  : M (option error) :=
  fun w => let '(s, e) := Room_AddUser r userName sock (roomsState w) in
           Ok e (mkWorld (userCount w) (users w) (heap w) s
                   (calls w ++ [CallAddUser (Room_Name r) userName sock])).

(** Modelled from the spec: [helpers.ActionChannel.Execute] is not among the
    sources.  The executor runs a submitted action to completion on its single
    worker, one action at a time, and hands the action's results back to the
    submitting caller. *)
Definition Execute (action : list iface -> M (list iface))
  (params : list iface) : M (list iface) :=
  action params.

(** ** The registry actions *)

Definition AlreadyLoggedIn (userName : string) : error :=
  errors_New ("User '" +:+ userName +:+ "' is already logged in").

Definition NotLoggedIn (userName : string) : error :=
  errors_New ("User '" +:+ userName +:+ "' is not logged in").

Definition loginUser (p : list iface) : M (list iface) :=
  userName <- (v <- index p 0 ;; as_string v) ;;
  dbID <- (v <- index p 1 ;; as_int64 v) ;;
  isGuest <- (v <- index p 2 ;; as_bool v) ;;
  socket <- (v <- index p 3 ;; as_Conn v) ;;
  ok <- users_lookup userName ;;
  match ok with
  | Some _ =>
      ret [I_User User_zero; of_error (Some (AlreadyLoggedIn userName))]
  | None =>
      userCount_incr ;;;
      newUser <- new (mkUser userName dbID isGuest "" 0 socket) ;;
      users_store userName newUser ;;;
      userRef <- (q <- users_at userName ;; load q) ;;
      ret [I_User userRef; of_error None]
  end.

Definition getUser (p : list iface) : M (list iface) :=
  userName <- (v <- index p 0 ;; as_string v) ;;
  ok <- users_lookup userName ;;
  match ok with
  | Some user =>
      userRef <- load user ;;
      ret [I_User userRef; of_error None]
  | None =>
      ret [I_User User_zero; of_error (Some (NotLoggedIn userName))]
  end.

Definition changeUserRoomName (p : list iface) : M (list iface) :=
  theUser <- (v <- index p 0 ;; as_UserPtr v) ;;
  roomName <- (v <- index p 1 ;; as_string v) ;;
  ok <- (u <- load theUser ;; users_lookup (name u)) ;;
  match ok with
  | Some _ =>
      (q <- (u <- load theUser ;; users_at (name u)) ;; store_room q roomName) ;;;
      store_room theUser roomName ;;;
      ret [of_error None]
  | None =>
      u <- load theUser ;;
      ret [of_error (Some (NotLoggedIn (name u)))]
  end.

Definition logUserOut (p : list iface) : M (list iface) :=
  userName <- (v <- index p 0 ;; as_string v) ;;
  users_delete userName ;;;
  ret [].

(** ** The public operations *)

Definition NotInRoom (userName : string) : error :=
  errors_New ("User '" +:+ userName +:+ "' is not in a room.").

Definition AlreadyInRoom (userName roomName : string) : error :=
  errors_New ("User '" +:+ userName +:+ "' is already in room '"
              +:+ roomName +:+ "'").

(** [if(response[i] != nil){ return response[i].(error) }]: the error held
    by an action's result, if any. *)
Definition response_error (response : list iface) (i : nat)
  : M (option error) :=
  v <- index response i ;;
  if negb (is_nil v) then e <- as_error v ;; ret (Some e) else ret None.

Section Login.

(** The inner [if] of [Login] has an empty condition in the source; its
    value is left open. *)
Variable dupLoginCond : bool.

Definition Login (userName : string) (dbID : Z) (isGuest : bool)
  (socket : Conn) : M (User * option error) :=
  if Nat.eqb (String.length userName) 0 then
    ret (User_zero, Some (errors_New "users.Login() requires a user name"))
  else if (dbID <? -1)%Z then
    ret (User_zero,
         Some (errors_New
                 "users.Login() requires a database ID (or -1 for no ID)"))
  else if socket is None then
    ret (User_zero, Some (errors_New "users.Login() requires a socket"))
  else
    let databaseID := if isGuest then -1 else dbID in
    response <- Execute loginUser
                  [I_string userName; I_int64 databaseID; I_bool isGuest;
                   I_Conn socket] ;;
    err <- (v <- index response 1 ;;
            if negb (is_nil v) then
              if dupLoginCond then ret None
              else e <- as_error v ;; ret (Some e)
            else ret None) ;;
    u <- (v <- index response 0 ;; as_User v) ;;
    ret (u, err).

End Login.

Definition Get (userName : string) : M (User * option error) :=
  if Nat.eqb (String.length userName) 0 then
    ret (User_zero, Some (errors_New "users.Get() requires a user name"))
  else
    response <- Execute getUser [I_string userName] ;;
    err <- response_error response 1 ;;
    u <- (v <- index response 0 ;; as_User v) ;;
    ret (u, err).

Definition Leave (u : loc) : M (option error) :=
  uroom <- field room u ;;
  if negb (String.eqb uroom "") then
    got <- (n <- field room u ;; call_rooms_Get n) ;;
    let (r, roomErr) := got in
    match roomErr with
    | Some e => ret (Some e)
    | None =>
        removeErr <- (n <- field name u ;; call_RemoveUser r n) ;;
        match removeErr with
        | Some e => ret (Some e)
        | None =>
            response <- Execute changeUserRoomName [I_UserPtr u; I_string ""] ;;
            response_error response 0
        end
    end
  else
    n <- field name u ;; ret (Some (NotInRoom n)).

Definition Join (u : loc) (r : Room) : M (option error) :=
  uroom <- field room u ;;
  if String.eqb uroom (Room_Name r) then
    n <- field name u ;; ret (Some (AlreadyInRoom n (Room_Name r)))
  else
    (uroom <- field room u ;;
     if negb (String.eqb uroom "") then Leave u ;;; ret tt else ret tt) ;;;
    response <- Execute changeUserRoomName
                  [I_UserPtr u; I_string (Room_Name r)] ;;
    changeErr <- response_error response 0 ;;
    match changeErr with
    | Some e => ret (Some e)
    | None =>
        n <- field name u ;;
        sock <- field socket u ;;
        call_AddUser r n sock
    end.

Definition LogOut (u : loc) : M unit :=
  uroom <- field room u ;;
  (if negb (String.eqb uroom "") then
     got <- (n <- field room u ;; call_rooms_Get n) ;;
     let (r, err) := got in
     match err with
     | None => (n <- field name u ;; call_RemoveUser r n) ;;; ret tt
     | Some _ => ret tt
     end
   else ret tt) ;;;
  n <- field name u ;;
  Execute logUserOut [I_string n] ;;;
  ret tt.

Definition Kick (userName : string) : M (option error) :=
  if Nat.eqb (String.length userName) 0 then
    ret (Some (errors_New "users.Kick() requires a user name"))
  else
    got <- Get userName ;;
    let (user, err) := got in
    match err with
    | Some e => ret (Some e)
    | None =>
        (p <- new user ;; LogOut p) ;;;
        ret None
    end.

(** ** What the claims talk about *)

(** The record the registry holds for a name. *)
Definition session (w : World) (k : string) : option User :=
  l ← users w !! k; heap w !! l.

(** Every registry entry points at an allocated cell that carries the
    entry's own key as its name. *)
Definition wf (w : World) : Prop :=
  forall k l, users w !! k = Some l ->
    exists u, heap w !! l = Some u /\ name u = k.

(** The world after one more call of the collaborator, which left its own
    state as [s]: the registry part is untouched. *)
Definition called (w : World) (s : RoomsState) (c : Call) : World :=
  mkWorld (userCount w) (users w) (heap w) s (calls w ++ [c]).

Definition is_AddUser (c : Call) : bool :=
  match c with CallAddUser _ _ _ => true | _ => false end.

(** [Get] followed by logging out the session it returned. *)
Definition Get_then_LogOut (userName : string) : M (option error) :=
  got <- Get userName ;;
  let (user, err) := got in
  match err with
  | Some e => ret (Some e)
  | None => (p <- new user ;; LogOut p) ;;; ret None
  end.

(** ** The remaining functions of the package *)

Section RoomUserConversion.

(** [rooms.RoomUser] is not among the sources: the type and its [Name]
    method are parameters. *)
Variable RoomUserT : Type.
Variable RoomUser_Name : RoomUserT -> string.

Definition RoomUser (ru : RoomUserT) : M (User * option error) :=
  got <- Get (RoomUser_Name ru) ;;
  let (u, e) := got in
  match e with
  | Some _ => ret (User_zero, e)
  | None => ret (u, e)
  end.

End RoomUserConversion.

(** The attribute readers. *)
Definition Name (u : loc) : M string := field name u.
Definition DatabaseID (u : loc) : M Z := field databaseID u.
Definition RoomName (u : loc) : M string := field room u.
Definition Socket (u : loc) : M Conn := field socket u.
Definition IsGuest (u : loc) : M bool := field isGuest u.

(** ** Relations between the world before and after an operation *)

(** [m] relates every world it starts in to the world it returns in. *)
Definition keeps {A} (R : World -> World -> Prop) (m : M A) : Prop :=
  forall (w : World) (a : A) (w' : World), m w = Ok a w' -> R w w'.

(** A relation that holds across reads, across writes of a room through a
    pointer, across the allocation of a cell and across calls of the
    collaborator, and that composes. *)
Record frame_rel (R : World -> World -> Prop) : Prop := mk_frame_rel {
  fr_refl : forall w, R w w;
  fr_trans : forall w1 w2 w3, R w1 w2 -> R w2 w3 -> R w1 w3;
  fr_store_room : forall p rn, keeps R (store_room p rn);
  fr_new : forall u, keeps R (new u);
  fr_called : forall w s c, R w (called w s c)
}.

(** Well-formedness carries over. *)
Definition R_wf (w w' : World) : Prop := wf w -> wf w'.

(** No cell is freed, and a cell changes in its room only. *)
Definition R_cells (w w' : World) : Prop :=
  forall (p : loc) (u : User), heap w !! p = Some u ->
    exists rm : string, heap w' !! p = Some (set_room rm u).

(** The counter of logins is the same. *)
Definition R_count (w w' : World) : Prop := userCount w' = userCount w.

(** The registry has the same entries. *)
Definition R_users (w w' : World) : Prop := users w' = users w.

(** Seen from a pointer [u] to a [User] named [n] in a well-formed world:
    the world stays well formed, [u] still points at a [User] named [n], and
    the sessions of all other names are what they were. *)
Definition R_others (n : string) (u : loc) (w w' : World) : Prop :=
  wf w -> (exists v, heap w !! u = Some v /\ name v = n) ->
  wf w'
  /\ (exists v', heap w' !! u = Some v' /\ name v' = n)
  /\ forall k : string, k <> n -> session w' k = session w k.

(** The registry has no entry that it did not have. *)
Definition R_shrinks (w w' : World) : Prop :=
  forall (k : string) (l : loc), users w' !! k = Some l ->
    users w !! k = Some l.

(** One use of the package by its callers: a public function that returns,
    or a [User] value put into a variable of the caller. *)
Inductive step : World -> World -> Prop :=
| step_new (u : User) (p : loc) (w w' : World) :
    new u w = Ok p w' -> step w w'
| step_Login (c : bool) (n : string) (d : Z) (g : bool) (s : Conn)
    (a : User * option error) (w w' : World) :
    Login c n d g s w = Ok a w' -> step w w'
| step_Get (n : string) (a : User * option error) (w w' : World) :
    Get n w = Ok a w' -> step w w'
| step_Join (u : loc) (r : Room) (a : option error) (w w' : World) :
    Join u r w = Ok a w' -> step w w'
| step_Leave (u : loc) (a : option error) (w w' : World) :
    Leave u w = Ok a w' -> step w w'
| step_LogOut (u : loc) (w w' : World) :
    LogOut u w = Ok tt w' -> step w w'
| step_Kick (n : string) (a : option error) (w w' : World) :
    Kick n w = Ok a w' -> step w w'.

(** The worlds the package can be in: it starts with no user, an empty
    heap and any state of the collaborator. *)
Inductive reachable : World -> Prop :=
| reach_init (s : RoomsState) : reachable (mkWorld 0 ∅ ∅ s [])
| reach_step (w w' : World) : reachable w -> step w w' -> reachable w'.

(** What holds of every record of the registry. *)
Definition registry_inv (w : World) : Prop :=
  users w !! "" = None
  /\ forall (k : string) (l : loc), users w !! k = Some l ->
       exists rec : User,
         heap w !! l = Some rec /\ name rec = k
         /\ -1 <= databaseID rec
         /\ (isGuest rec = true -> databaseID rec = -1)
         /\ status rec = StatusAvailable
         /\ socket rec <> None.

End Registry.

(** ** The start-up settings of the package

    [serverStarted] and [kickOnLogin] are package variables of their own;
    no other function of the package reads or writes them. *)
Record Settings : Type := mkSettings {
  serverStarted : bool;
  kickOnLogin : bool
}.

Definition Settings_init : Settings := mkSettings false false.

Definition SetServerStarted (val : bool) (s : Settings) : Settings :=
  if negb (serverStarted s) then mkSettings val (kickOnLogin s) else s.

Definition SettingsSet (kickDups : bool) (s : Settings) : Settings :=
  if negb (serverStarted s) then mkSettings (serverStarted s) kickDups else s.

(** A call of one of the two functions, and a sequence of calls. *)
Inductive SettingsCall : Type :=
| DoSetServerStarted (val : bool)
| DoSettingsSet (kickDups : bool).

Definition run_call (s : Settings) (c : SettingsCall) : Settings :=
  match c with
  | DoSetServerStarted val => SetServerStarted val s
  | DoSettingsSet kickDups => SettingsSet kickDups s
  end.

Definition run_calls (cs : list SettingsCall) (s : Settings) : Settings :=
  fold_left run_call cs s.

(** The value the calls ask for: that of the last [SettingsSet] made before
    the first [SetServerStarted(true)]. *)
Fixpoint kick_requested (cs : list SettingsCall) (k : bool) : bool :=
  match cs with
  | [] => k
  | DoSetServerStarted true :: _ => k
  | DoSetServerStarted false :: cs' => kick_requested cs' k
  | DoSettingsSet k' :: cs' => kick_requested cs' k'
  end.

Definition asks_start (c : SettingsCall) : bool :=
  match c with DoSetServerStarted true => true | _ => false end.

Arguments Ok {_ _} a w.
Arguments Panic {_ _} msg.

Notation "x <- m ;; k" := (bind m (fun x => k))
  (at level 100, m at next level, right associativity).
Notation "m ;;; k" := (bind m (fun _ => k))
  (at level 100, right associativity).

(** ** A small collaborator to run the operations against

    Rooms are their names; the state lists the (room, user) memberships;
    only the rooms "lobby" and "arena" exist. *)
Definition demo_member (r n : string) (s : list (string * string)) : bool :=
  existsb (fun m => String.eqb (fst m) r && String.eqb (snd m) n) s.

Definition demo_rooms : Rooms := {|
  Room := string;
  RoomsState := list (string * string);
  rooms_Get := fun n s =>
    (s, (n, if String.eqb n "lobby" || String.eqb n "arena" then None
            else Some (errors_New ("Room '" +:+ n +:+ "' not found"))));
  Room_Name := fun r => r;
  Room_AddUser := fun r n _ s =>
    if demo_member r n s
    then (s, Some (errors_New "already a member"))
    else ((r, n) :: s, None);
  Room_RemoveUser := fun r n s =>
    if demo_member r n s
    then (filter (fun m => negb (String.eqb (fst m) r && String.eqb (snd m) n)) s, None)
    else (s, Some (errors_New "not a member"))
|}.

Definition demo_lobby : @Room demo_rooms := "lobby".
Definition demo_arena : @Room demo_rooms := "arena".

Definition demo_alice : User := mkUser "alice" 7 false "lobby" 0 (Some 1%positive).

(** A world where alice is logged in and sits in the lobby; cell 1 is the
    registry's record, cell 2 a copy held by a caller. *)
Definition demo_world : @World demo_rooms :=
  @mkWorld demo_rooms 1 {[ "alice" := 1%positive ]}
    (<[2%positive := demo_alice]> {[ 1%positive := demo_alice ]})
    [("lobby", "alice")] [].

(** The same world, where alice is already listed in the arena, so that
    [AddUser] into the arena fails. *)
Definition demo_world_arena : @World demo_rooms :=
  @mkWorld demo_rooms 1 {[ "alice" := 1%positive ]}
    (<[2%positive := demo_alice]> {[ 1%positive := demo_alice ]})
    [("lobby", "alice"); ("arena", "alice")] [].

Definition demo_empty : @World demo_rooms := @mkWorld demo_rooms 0 ∅ ∅ [] [].

Definition demo_bob : User := mkUser "bob" (-1) true "" 0 (Some 2%positive).

(** alice (in the lobby) and bob (in no room) are both logged in; cell 2 is
    a caller's copy of alice. *)
Definition demo_world_two : @World demo_rooms :=
  @mkWorld demo_rooms 2
    (<[ "bob" := 3%positive ]> {[ "alice" := 1%positive ]})
    (<[3%positive := demo_bob]>
       (<[2%positive := demo_alice]> {[ 1%positive := demo_alice ]}))
    [("lobby", "alice")] [].

(** alice has been logged out, but a caller still holds her [User] in
    cell 2, and the lobby still lists her. *)
Definition demo_world_stale : @World demo_rooms :=
  @mkWorld demo_rooms 1 ∅ {[ 2%positive := demo_alice ]}
    [("lobby", "alice")] [].

(** The counter has reached the largest [int64]. *)
Definition demo_world_full : @World demo_rooms :=
  @mkWorld demo_rooms (2 ^ 63 - 1) ∅ ∅ [] [].

(** * Properties *)

Section Properties.
Context `{Rooms}.

(** ** Running the monad *)

Lemma bind_Ok {A B} (m : M A) (k : A -> M B) (w w' : World) (a : A) :
  m w = Ok a w' -> bind m k w = k a w'.
Proof. intros E. unfold bind. now rewrite E. Qed.

Lemma load_Some (p : loc) (u : User) (w : World) :
  heap w !! p = Some u -> load p w = Ok u w.
Proof. intros E. unfold load. now rewrite E. Qed.

Lemma field_Some {A} (f : User -> A) (p : loc) (u : User) (w : World) :
  heap w !! p = Some u -> field f p w = Ok (f u) w.
Proof. intros E. unfold field. now rewrite (bind_Ok _ _ _ _ _ (load_Some _ _ _ E)). Qed.

Lemma set_room_idemp (a b : string) (u : User) :
  set_room a (set_room b u) = set_room a u.
Proof. reflexivity. Qed.

Lemma set_room_name (a : string) (u : User) : name (set_room a u) = name u.
Proof. reflexivity. Qed.

Lemma World_eta (w : World) :
  mkWorld (userCount w) (users w) (heap w) (roomsState w) (calls w) = w.
Proof. now destruct w. Qed.

Lemma int64_wrap_small (z : Z) :
  - 2 ^ 63 <= z < 2 ^ 63 -> int64_wrap z = z.
Proof.
  intros Hz. unfold int64_wrap.
  rewrite Z.mod_small; lia.
Qed.

(** ** The registry actions, one equation per case *)

Lemma loginUser_taken (w : World) (n : string) (d : Z) (g : bool) (s : Conn) :
  is_Some (users w !! n) ->
  loginUser [I_string n; I_int64 d; I_bool g; I_Conn s] w
  = Ok [I_User User_zero; I_error (AlreadyLoggedIn n)] w.
Proof.
  intros [l E]. unfold loginUser, bind, index, users_lookup; simpl.
  now rewrite E.
Qed.

Lemma loginUser_free (w : World) (n : string) (d : Z) (g : bool) (s : Conn) :
  users w !! n = None ->
  loginUser [I_string n; I_int64 d; I_bool g; I_Conn s] w
  = Ok [I_User (mkUser n d g "" 0 s); I_nil]
      (mkWorld (int64_wrap (userCount w + 1))
         (<[n := fresh (dom (heap w))]> (users w))
         (<[fresh (dom (heap w)) := mkUser n d g "" 0 s]> (heap w))
         (roomsState w) (calls w)).
Proof.
  intros E. unfold loginUser, bind, index, users_lookup; simpl.
  rewrite E. unfold userCount_incr, new, users_store, users_at, load; simpl.
  rewrite lookup_insert_eq; simpl. now rewrite lookup_insert_eq.
Qed.

Lemma getUser_absent (w : World) (n : string) :
  users w !! n = None ->
  getUser [I_string n] w = Ok [I_User User_zero; I_error (NotLoggedIn n)] w.
Proof.
  intros E. unfold getUser, bind, index, users_lookup; simpl. now rewrite E.
Qed.

Lemma getUser_present (w : World) (n : string) (l : loc) :
  users w !! n = Some l ->
  getUser [I_string n] w
  = match heap w !! l with
    | Some u => Ok [I_User u; I_nil] w
    | None => Panic "nil pointer dereference"
    end.
Proof.
  intros E. unfold getUser, bind, index, users_lookup; simpl. rewrite E.
  unfold load. now destruct (heap w !! l).
Qed.

Lemma logUserOut_eq (w : World) (n : string) :
  logUserOut [I_string n] w
  = Ok [] (mkWorld (userCount w) (delete n (users w)) (heap w)
             (roomsState w) (calls w)).
Proof. reflexivity. Qed.

Lemma changeUserRoomName_absent (w : World) (p : loc) (rn : string) (u : User) :
  heap w !! p = Some u -> users w !! name u = None ->
  changeUserRoomName [I_UserPtr p; I_string rn] w
  = Ok [I_error (NotLoggedIn (name u))] w.
Proof.
  intros Hp E. unfold changeUserRoomName, bind, index, users_lookup, load; simpl.
  rewrite Hp, E. now rewrite Hp.
Qed.

Lemma changeUserRoomName_live (w : World) (p l : loc) (rn : string)
  (u rec : User) :
  heap w !! p = Some u -> users w !! name u = Some l ->
  heap w !! l = Some rec ->
  changeUserRoomName [I_UserPtr p; I_string rn] w
  = Ok [I_nil]
      (mkWorld (userCount w) (users w)
         (<[p := set_room rn u]> (<[l := set_room rn rec]> (heap w)))
         (roomsState w) (calls w)).
Proof.
  intros Hp E Hl.
  unfold changeUserRoomName, bind, index, users_lookup, users_at, load,
    store_room; simpl.
  rewrite Hp, E, Hp, E, Hl; simpl.
  destruct (decide (l = p)) as [->|Hne].
  - rewrite lookup_insert_eq. simpl. replace rec with u by congruence.
    reflexivity.
  - rewrite lookup_insert_ne, Hp by done. reflexivity.
Qed.

Lemma changeUserRoomName_cells (h : gmap loc User) (p l : loc) (rn : string)
  (u rec : User) :
  h !! p = Some u -> h !! l = Some rec ->
  let h' := <[p := set_room rn u]> (<[l := set_room rn rec]> h) in
  h' !! l = Some (set_room rn rec) /\ h' !! p = Some (set_room rn u)
  /\ (forall q : loc, q <> l -> q <> p -> h' !! q = h !! q).
Proof.
  intros Hp Hl h'. subst h'. repeat split.
  - destruct (decide (p = l)) as [->|Hne].
    + rewrite lookup_insert_eq. congruence.
    + rewrite lookup_insert_ne by done. apply lookup_insert_eq.
  - apply lookup_insert_eq.
  - intros q Hq1 Hq2. now rewrite !lookup_insert_ne by done.
Qed.

(** The public [Get], one equation per case. *)
Lemma Get_empty_name (w : World) :
  Get "" w
  = Ok (User_zero, Some (errors_New "users.Get() requires a user name")) w.
Proof. reflexivity. Qed.

Lemma Get_absent (w : World) (n : string) :
  String.length n <> 0%nat -> users w !! n = None ->
  Get n w = Ok (User_zero, Some (NotLoggedIn n)) w.
Proof.
  intros Hn E. unfold Get, Execute.
  destruct (String.length n); [congruence|]. simpl.
  now rewrite (bind_Ok _ _ _ _ _ (getUser_absent _ _ E)).
Qed.

Lemma Get_present (w : World) (n : string) (rec : User) :
  String.length n <> 0%nat -> session w n = Some rec ->
  Get n w = Ok (rec, None) w.
Proof.
  intros Hn. unfold session.
  destruct (users w !! n) as [l|] eqn:E; [|discriminate]. simpl.
  intros Hl. unfold Get, Execute.
  destruct (String.length n); [congruence|]. simpl.
  assert (G : getUser [I_string n] w = Ok [I_User rec; I_nil] w)
    by now rewrite (getUser_present _ _ _ E), Hl.
  now rewrite (bind_Ok _ _ _ _ _ G).
Qed.

(** ** The invariant *)

Lemma wf_session (w : World) (k : string) (l : loc) :
  wf w -> users w !! k = Some l ->
  exists u, heap w !! l = Some u /\ name u = k /\ session w k = Some u.
Proof.
  intros Hwf E. destruct (Hwf _ _ E) as (u & Hu & Hn).
  exists u. repeat split; trivial. unfold session. rewrite E. simpl. exact Hu.
Qed.

Lemma fresh_heap_None (w : World) : heap w !! fresh (dom (heap w)) = None.
Proof. apply not_elem_of_dom. apply is_fresh. Qed.

Lemma wf_loginUser (w w' : World) (p out : list iface) :
  wf w -> loginUser p w = Ok out w' -> wf w'.
Proof.
  intros Hwf. unfold loginUser, bind, index.
  destruct p as [|[] [|[] [|[] [|[] p]]]]; simpl; try discriminate.
  unfold users_lookup. destruct (users w !! s) eqn:E; simpl.
  - intros [= _ <-]. exact Hwf.
  - unfold userCount_incr, new, users_store, users_at, load; simpl.
    rewrite lookup_insert_eq; simpl. rewrite lookup_insert_eq; simpl.
    intros [= _ <-]. intros k l; simpl.
    destruct (decide (s = k)) as [->|Hne].
    + rewrite lookup_insert_eq. intros [= <-]. rewrite lookup_insert_eq. eauto.
    + rewrite lookup_insert_ne by done. intros Hk.
      destruct (Hwf _ _ Hk) as (u & Hu & Hn). exists u. split; trivial.
      rewrite lookup_insert_ne; trivial.
      intros <-. rewrite fresh_heap_None in Hu. discriminate.
Qed.

Lemma wf_store_room (w w' : World) (p : loc) (rn : string) :
  wf w -> store_room p rn w = Ok tt w' -> wf w'.
Proof.
  intros Hwf. unfold store_room. destruct (heap w !! p) as [u|] eqn:Hp; [|discriminate].
  intros [= <-]. intros k l Hk; simpl in *.
  destruct (Hwf _ _ Hk) as (v & Hv & Hn).
  destruct (decide (p = l)) as [->|Hne].
  - rewrite lookup_insert_eq. exists (set_room rn u). split; trivial.
    rewrite set_room_name. congruence.
  - rewrite lookup_insert_ne by done. eauto.
Qed.

Lemma wf_changeUserRoomName (w w' : World) (p out : list iface) :
  wf w -> changeUserRoomName p w = Ok out w' -> wf w'.
Proof.
  intros Hwf. unfold changeUserRoomName, bind, index.
  destruct p as [|[] [|[] p]]; simpl; try discriminate.
  unfold load at 1. destruct (heap w !! p0) as [u|] eqn:Hp; [|discriminate].
  unfold users_lookup. destruct (users w !! name u) as [l|] eqn:E.
  - unfold load, users_at. rewrite Hp, E.
    destruct (store_room l s w) as [[] w1|] eqn:S1; [|discriminate].
    destruct (store_room p0 s w1) as [[] w2|] eqn:S2; [|discriminate].
    intros [= _ <-]. eauto using wf_store_room.
  - unfold load. rewrite Hp. intros [= _ <-]. exact Hwf.
Qed.

Lemma wf_logUserOut (w w' : World) (p out : list iface) :
  wf w -> logUserOut p w = Ok out w' -> wf w'.
Proof.
  intros Hwf. unfold logUserOut, bind, index.
  destruct p as [|[] p]; simpl; try discriminate.
  intros [= _ <-]. intros k l; simpl. intros Hk.
  apply lookup_delete_Some in Hk as [_ Hk]. eauto.
Qed.

(** ** Login, Get, Logout and the room change, run through the executor *)

(** C1.  [loginUser] run through the executor: when the name already has an
    entry the action answers [User{}] with the already-logged-in error and the
    world (map, counter, cells) is left as it was; otherwise [userCount] is
    incremented (as an [int64]), a fresh cell holding the new record, with
    [room = ""] and [status = StatusAvailable], is stored under the name, and
    the value returned is a copy of that record; a further [loginUser] of the
    same name then fails, so of several logins with one name run one after
    the other by the executor only the first succeeds. *)
Theorem loginUser_spec (w : World) (userName : string) (dbID : Z)
  (guest : bool) (sock : Conn) :
  (is_Some (users w !! userName) ->
   Execute loginUser
     [I_string userName; I_int64 dbID; I_bool guest; I_Conn sock] w
   = Ok [I_User User_zero; I_error (AlreadyLoggedIn userName)] w)
  /\
  (users w !! userName = None ->
   exists (l : loc) (w' : World) (rec : User),
     Execute loginUser
       [I_string userName; I_int64 dbID; I_bool guest; I_Conn sock] w
     = Ok [I_User rec; I_nil] w'
     /\ rec = mkUser userName dbID guest "" StatusAvailable sock
     /\ userCount w' = int64_wrap (userCount w + 1)
     /\ (- 2 ^ 63 <= userCount w < 2 ^ 63 - 1 ->
         userCount w' = userCount w + 1)
     /\ heap w !! l = None
     /\ users w' = <[userName := l]> (users w)
     /\ heap w' = <[l := rec]> (heap w)
     /\ session w' userName = Some rec
     /\ roomsState w' = roomsState w /\ calls w' = calls w
     /\ forall (dbID2 : Z) (guest2 : bool) (sock2 : Conn),
         Execute loginUser
           [I_string userName; I_int64 dbID2; I_bool guest2; I_Conn sock2] w'
         = Ok [I_User User_zero; I_error (AlreadyLoggedIn userName)] w').
Proof.
  unfold Execute. split.
  - apply loginUser_taken.
  - intros E. eexists _, _, _. split; [apply (loginUser_free _ _ _ _ _ E)|].
    simpl. repeat split.
    + intros Hr. apply int64_wrap_small. lia.
    + apply fresh_heap_None.
    + unfold session; simpl. rewrite lookup_insert_eq; simpl.
      apply lookup_insert_eq.
    + intros. apply loginUser_taken. simpl. rewrite lookup_insert_eq. eauto.
Qed.

(** C2.  [getUser] run through the executor answers the not-logged-in error
    exactly when the name has no entry; when the registry holds a record for
    the name it answers a copy of that record and [nil], and in both cases the
    world is left as it was.  After [logUserOut] of a name, [getUser] of the
    same name answers the not-logged-in error.  The public [Get] relays both
    answers for every non-empty name. *)
Theorem getUser_spec (w : World) (userName : string) :
  (users w !! userName = None <->
   Execute getUser [I_string userName] w
   = Ok [I_User User_zero; I_error (NotLoggedIn userName)] w)
  /\
  (forall rec : User, session w userName = Some rec ->
   Execute getUser [I_string userName] w = Ok [I_User rec; I_nil] w)
  /\
  (exists w' : World,
     Execute logUserOut [I_string userName] w = Ok [] w'
     /\ Execute getUser [I_string userName] w'
        = Ok [I_User User_zero; I_error (NotLoggedIn userName)] w')
  /\
  (String.length userName <> 0%nat ->
   (users w !! userName = None ->
    Get userName w = Ok (User_zero, Some (NotLoggedIn userName)) w)
   /\
   (forall rec : User, session w userName = Some rec ->
    Get userName w = Ok (rec, None) w)).
Proof.
  unfold Execute. repeat split.
  - apply getUser_absent.
  - destruct (users w !! userName) as [l|] eqn:E; [|reflexivity].
    rewrite (getUser_present _ _ _ E).
    destruct (heap w !! l); discriminate.
  - intros rec. unfold session.
    destruct (users w !! userName) as [l|] eqn:E; [|discriminate]. simpl.
    intros Hl. now rewrite (getUser_present _ _ _ E), Hl.
  - eexists. split; [apply logUserOut_eq|].
    apply getUser_absent. simpl. apply lookup_delete_eq.
  - now apply Get_absent.
  - intros rec. now apply Get_present.
Qed.

(** C8.  [logUserOut] run through the executor deletes the entry of the name
    and nothing else, answers the empty result (there is no error to report)
    whether or not the entry was there, leaves the world as it was when the
    entry was absent, and running it a second time changes nothing more. *)
Theorem logUserOut_spec (w : World) (userName : string) :
  exists w' : World,
    Execute logUserOut [I_string userName] w = Ok [] w'
    /\ users w' = delete userName (users w)
    /\ users w' !! userName = None
    /\ (forall k : string, k <> userName -> users w' !! k = users w !! k)
    /\ userCount w' = userCount w /\ heap w' = heap w
    /\ roomsState w' = roomsState w /\ calls w' = calls w
    /\ (users w !! userName = None -> w' = w)
    /\ Execute logUserOut [I_string userName] w' = Ok [] w'.
Proof.
  unfold Execute. eexists. split; [apply logUserOut_eq|]. simpl.
  repeat split.
  - apply lookup_delete_eq.
  - intros k Hk. now apply lookup_delete_ne.
  - intros E. rewrite delete_id by exact E. apply World_eta.
  - rewrite logUserOut_eq. simpl. now rewrite delete_delete_eq.
Qed.


(** ** Calls of the collaborator *)

Lemma call_rooms_Get_eq (w : World) (n : string) (s : RoomsState)
  (r : Room) (e : option error) :
  rooms_Get n (roomsState w) = (s, (r, e)) ->
  call_rooms_Get n w = Ok (r, e) (called w s (CallGet n)).
Proof. intros E. unfold call_rooms_Get. now rewrite E. Qed.

Lemma call_RemoveUser_eq (w : World) (r : Room) (n : string)
  (s : RoomsState) (e : option error) :
  Room_RemoveUser r n (roomsState w) = (s, e) ->
  call_RemoveUser r n w = Ok e (called w s (CallRemoveUser (Room_Name r) n)).
Proof. intros E. unfold call_RemoveUser. now rewrite E. Qed.

Lemma call_AddUser_eq (w : World) (r : Room) (n : string) (c : Conn)
  (s : RoomsState) (e : option error) :
  Room_AddUser r n c (roomsState w) = (s, e) ->
  call_AddUser r n c w = Ok e (called w s (CallAddUser (Room_Name r) n c)).
Proof. intros E. unfold call_AddUser. now rewrite E. Qed.

Lemma session_called (w : World) (s : RoomsState) (c : Call) (k : string) :
  session (called w s c) k = session w k.
Proof. reflexivity. Qed.

(** Symbolic execution of a method body: read the fields through the
    receiver, then reduce. *)
Ltac run_fields Hp :=
  repeat (rewrite (bind_Ok _ _ _ _ _ (field_Some _ _ _ _ Hp)); simpl).

(** ** Leave *)

Lemma Leave_no_room (w : World) (u : loc) (cur : User) :
  heap w !! u = Some cur -> room cur = "" ->
  Leave u w = Ok (Some (NotInRoom (name cur))) w.
Proof.
  intros Hp Hr. unfold Leave. run_fields Hp. rewrite Hr. simpl.
  now run_fields Hp.
Qed.

Lemma Leave_in_room (w : World) (u : loc) (cur : User) (s1 : RoomsState)
  (r : Room) (roomErr : option error) :
  heap w !! u = Some cur -> room cur <> "" ->
  rooms_Get (room cur) (roomsState w) = (s1, (r, roomErr)) ->
  Leave u w
  = match roomErr with
    | Some e => Ok (Some e) (called w s1 (CallGet (room cur)))
    | None =>
        (removeErr <- call_RemoveUser r (name cur) ;;
         match removeErr with
         | Some e => ret (Some e)
         | None =>
             response <- Execute changeUserRoomName
                           [I_UserPtr u; I_string ""] ;;
             response_error response 0
         end) (called w s1 (CallGet (room cur)))
    end.
Proof.
  intros Hp Hr E. unfold Leave. run_fields Hp.
  apply String.eqb_neq in Hr. rewrite Hr. simpl.
  unfold bind at 1. unfold bind at 1. rewrite (field_Some _ _ _ _ Hp).
  rewrite (call_rooms_Get_eq _ _ _ _ _ E).
  destruct roomErr; [reflexivity|].
  unfold bind at 1. unfold bind at 1.
  assert (Hp' : heap (called w s1 (CallGet (room cur))) !! u = Some cur)
    by exact Hp.
  rewrite (field_Some _ _ _ _ Hp'). reflexivity.
Qed.

Lemma Leave_done (w : World) (u l : loc) (cur rec : User)
  (s1 s2 : RoomsState) (r : Room) :
  heap w !! u = Some cur -> room cur <> "" ->
  rooms_Get (room cur) (roomsState w) = (s1, (r, None)) ->
  Room_RemoveUser r (name cur) s1 = (s2, None) ->
  users w !! name cur = Some l -> heap w !! l = Some rec ->
  Leave u w
  = Ok None
      (mkWorld (userCount w) (users w)
         (<[u := set_room "" cur]> (<[l := set_room "" rec]> (heap w)))
         s2
         ((calls w ++ [CallGet (room cur)])
            ++ [CallRemoveUser (Room_Name r) (name cur)])%list).
Proof.
  intros Hp Hr E E2 Hl Hrec. rewrite (Leave_in_room _ _ _ _ _ _ Hp Hr E).
  assert (E2' : Room_RemoveUser r (name cur)
                  (roomsState (called w s1 (CallGet (room cur))))
                = (s2, None)) by exact E2.
  rewrite (bind_Ok _ _ _ _ _ (call_RemoveUser_eq _ _ _ _ _ E2')).
  unfold Execute.
  rewrite (bind_Ok _ _ _ _ _
             (changeUserRoomName_live
                (called (called w s1 (CallGet (room cur))) s2
                   (CallRemoveUser (Room_Name r) (name cur)))
                u l "" cur rec Hp Hl Hrec)).
  reflexivity.
Qed.

(** C5.  [Leave] on a receiver without a room answers the not-in-room error
    and changes nothing, the log of collaborator calls included.  Otherwise
    it looks the room up by name and calls [RemoveUser]; when either fails it
    answers that error and the registry (map, counter, cells) is as before;
    when both succeed it runs [changeUserRoomName] with the empty name through
    the executor, which for a receiver whose name has a registry entry sets
    the room of the registry's record and of the receiver to [""]: both
    records are then the old ones with [""] as room, and [RoomName] of the
    receiver reads [""]. *)
Theorem Leave_spec (w : World) (u : loc) (cur : User) :
  heap w !! u = Some cur ->
  (room cur = "" -> Leave u w = Ok (Some (NotInRoom (name cur))) w)
  /\
  (room cur <> "" ->
   forall (s1 : RoomsState) (r : Room) (roomErr : option error),
     rooms_Get (room cur) (roomsState w) = (s1, (r, roomErr)) ->
     let w1 := called w s1 (CallGet (room cur)) in
     (forall e : error, roomErr = Some e ->
      Leave u w = Ok (Some e) w1
      /\ heap w1 = heap w /\ users w1 = users w
      /\ userCount w1 = userCount w)
     /\
     (roomErr = None ->
      forall (s2 : RoomsState) (removeErr : option error),
        Room_RemoveUser r (name cur) s1 = (s2, removeErr) ->
        let w2 := called w1 s2 (CallRemoveUser (Room_Name r) (name cur)) in
        (forall e : error, removeErr = Some e ->
         Leave u w = Ok (Some e) w2
         /\ heap w2 = heap w /\ users w2 = users w
         /\ userCount w2 = userCount w)
        /\
        (removeErr = None ->
         Leave u w
         = (response <- Execute changeUserRoomName
                          [I_UserPtr u; I_string ""] ;;
            response_error response 0) w2
         /\
         forall (l : loc) (rec : User),
           users w !! name cur = Some l -> heap w !! l = Some rec ->
           exists w' : World,
             Leave u w = Ok None w'
             /\ session w' (name cur) = Some (set_room "" rec)
             /\ heap w' !! u = Some (set_room "" cur)
             /\ users w' = users w /\ userCount w' = userCount w
             /\ roomsState w' = s2 /\ calls w' = calls w2
             /\ session w' (name cur)
                = Some (mkUser (name rec) (databaseID rec) (isGuest rec) ""
                      (status rec) (socket rec))
             /\ heap w' !! u
                = Some (mkUser (name cur) (databaseID cur) (isGuest cur) ""
                      (status cur) (socket cur))
             /\ RoomName u w' = Ok "" w'))).
Proof.
  intros Hp. split; [apply Leave_no_room, Hp|].
  intros Hr s1 r roomErr E w1.
  split.
  { intros e ->. now rewrite (Leave_in_room _ _ _ _ _ _ Hp Hr E). }
  intros -> s2 removeErr E2 w2.
  assert (E2' : Room_RemoveUser r (name cur) (roomsState w1) = (s2, removeErr))
    by exact E2.
  split.
  { intros e ->. rewrite (Leave_in_room _ _ _ _ _ _ Hp Hr E).
    now rewrite (bind_Ok _ _ _ _ _ (call_RemoveUser_eq _ _ _ _ _ E2')). }
  intros ->. split.
  { rewrite (Leave_in_room _ _ _ _ _ _ Hp Hr E).
    now rewrite (bind_Ok _ _ _ _ _ (call_RemoveUser_eq _ _ _ _ _ E2')). }
  intros l rec Hl Hrec.
  rewrite (Leave_done _ _ _ _ _ _ _ _ Hp Hr E E2 Hl Hrec).
  eexists. split; [reflexivity|]. simpl.
  destruct (changeUserRoomName_cells _ _ _ "" _ _ Hp Hrec)
    as (Hcell & Hcaller & _).
  assert (Hses : forall rs cs,
             session (mkWorld (userCount w) (users w)
                        (<[u := set_room "" cur]>
                           (<[l := set_room "" rec]> (heap w))) rs cs)
               (name cur)
             = Some (mkUser (name rec) (databaseID rec) (isGuest rec) ""
                       (status rec) (socket rec))).
  { intros. unfold session; simpl. rewrite Hl. simpl. exact Hcell. }
  repeat split; trivial; try apply Hses; try exact Hcaller.
  unfold RoomName, field, bind, load; simpl. now rewrite Hcaller.
Qed.

(** C10.  [changeUserRoomName] called with a pointer to a [User] whose name
    has a registry entry writes the room name into the registry's cell and,
    through the pointer, into the caller's cell (the two may be the same
    cell), and touches no other cell, the map or the counter; when the name
    has no entry it answers the not-logged-in error and writes nothing.
    After the write both cells hold their old record with the new room name
    in the place of the room, and [RoomName] through the pointer reads the new
    name.  A caller's [User] is thus updated in place: after a [Leave] that
    went through, the cell the caller passed reads [""]. *)
Theorem changeUserRoomName_spec (w : World) (theUser : loc)
  (roomName : string) (u : User) :
  heap w !! theUser = Some u ->
  (forall (l : loc) (rec : User),
     users w !! name u = Some l -> heap w !! l = Some rec ->
     exists w' : World,
       Execute changeUserRoomName [I_UserPtr theUser; I_string roomName] w
       = Ok [I_nil] w'
       /\ heap w' !! l = Some (set_room roomName rec)
       /\ session w' (name u) = Some (set_room roomName rec)
       /\ heap w' !! theUser = Some (set_room roomName u)
       /\ (forall q : loc, q <> l -> q <> theUser ->
           heap w' !! q = heap w !! q)
       /\ users w' = users w /\ userCount w' = userCount w
       /\ roomsState w' = roomsState w /\ calls w' = calls w
       /\ heap w' !! l
          = Some (mkUser (name rec) (databaseID rec) (isGuest rec) roomName
                      (status rec) (socket rec))
       /\ heap w' !! theUser
          = Some (mkUser (name u) (databaseID u) (isGuest u) roomName
                      (status u) (socket u))
       /\ RoomName theUser w' = Ok roomName w')
  /\
  (users w !! name u = None ->
   Execute changeUserRoomName [I_UserPtr theUser; I_string roomName] w
   = Ok [I_error (NotLoggedIn (name u))] w)
  /\
  (forall (l : loc) (rec : User) (s1 s2 : RoomsState) (r : Room),
     users w !! name u = Some l -> heap w !! l = Some rec ->
     room u <> "" ->
     rooms_Get (room u) (roomsState w) = (s1, (r, None)) ->
     Room_RemoveUser r (name u) s1 = (s2, None) ->
     exists w' : World,
       Leave theUser w = Ok None w'
       /\ heap w' !! theUser = Some (set_room "" u)
       /\ session w' (name u) = Some (set_room "" rec)
       /\ heap w' !! theUser
          = Some (mkUser (name u) (databaseID u) (isGuest u) ""
                      (status u) (socket u))
       /\ RoomName theUser w' = Ok "" w').
Proof.
  intros Hp. unfold Execute. split; [|split].
  - intros l rec E Hl. eexists.
    split; [apply (changeUserRoomName_live _ _ _ _ _ _ Hp E Hl)|]. simpl.
    destruct (changeUserRoomName_cells _ _ _ roomName _ _ Hp Hl)
      as (Hcell & Hcaller & Hframe).
    repeat split; trivial; try exact Hcell; try exact Hcaller.
    + unfold session; simpl. rewrite E. simpl. exact Hcell.
    + unfold RoomName, field, bind, load; simpl. now rewrite Hcaller.
  - apply changeUserRoomName_absent, Hp.
  - intros l rec s1 s2 r E Hl Hr E1 E2.
    rewrite (Leave_done _ _ _ _ _ _ _ _ Hp Hr E1 E2 E Hl).
    eexists. split; [reflexivity|]. simpl.
    destruct (changeUserRoomName_cells _ _ _ "" _ _ Hp Hl)
      as (Hcell & Hcaller & _).
    split; [exact Hcaller|]. split.
    { unfold session; simpl. rewrite E. simpl. exact Hcell. }
    split; [exact Hcaller|].
    unfold RoomName, field, bind, load; simpl. now rewrite Hcaller.
Qed.

(** ** Join *)

Lemma set_room_same (u : User) : set_room (room u) u = u.
Proof. now destruct u. Qed.

(** Whatever the collaborator answers, [Leave] returns, keeps the map and
    the counter, rewrites at most the room of the two cells, and never calls
    [AddUser]. *)
Lemma Leave_frame (w : World) (u l : loc) (cur rec : User) :
  heap w !! u = Some cur -> users w !! name cur = Some l ->
  heap w !! l = Some rec ->
  exists (e : option error) (w0 : World) (rm rm' : string) (cs : list Call),
    Leave u w = Ok e w0
    /\ users w0 = users w /\ userCount w0 = userCount w
    /\ heap w0 !! u = Some (set_room rm cur)
    /\ heap w0 !! l = Some (set_room rm' rec)
    /\ calls w0 = (calls w ++ cs)%list /\ existsb is_AddUser cs = false.
Proof.
  intros Hp Hl Hrec.
  destruct (decide (room cur = "")) as [Hr|Hr].
  { exists (Some (NotInRoom (name cur))), w, (room cur), (room rec), [].
    rewrite !set_room_same, app_nil_r.
    repeat split; trivial. now apply Leave_no_room. }
  destruct (rooms_Get (room cur) (roomsState w)) as [s1 [r roomErr]] eqn:E.
  rewrite (Leave_in_room _ _ _ _ _ _ Hp Hr E).
  destruct roomErr as [e|].
  { exists (Some e), (called w s1 (CallGet (room cur))), (room cur),
      (room rec), [CallGet (room cur)].
    rewrite !set_room_same. repeat split; trivial. }
  destruct (Room_RemoveUser r (name cur) s1) as [s2 removeErr] eqn:E2.
  assert (E2' : Room_RemoveUser r (name cur)
                  (roomsState (called w s1 (CallGet (room cur))))
                = (s2, removeErr)) by exact E2.
  rewrite (bind_Ok _ _ _ _ _ (call_RemoveUser_eq _ _ _ _ _ E2')).
  destruct removeErr as [e|].
  { eexists (Some e), _, (room cur), (room rec),
      [CallGet (room cur); CallRemoveUser (Room_Name r) (name cur)].
    split; [reflexivity|]. rewrite !set_room_same. simpl.
    repeat split; trivial. now rewrite <- app_assoc. }
  unfold Execute.
  rewrite (bind_Ok _ _ _ _ _
             (changeUserRoomName_live
                (called (called w s1 (CallGet (room cur))) s2
                   (CallRemoveUser (Room_Name r) (name cur)))
                u l "" cur rec Hp Hl Hrec)).
  eexists None, _, "", "",
    [CallGet (room cur); CallRemoveUser (Room_Name r) (name cur)].
  split; [reflexivity|]. simpl.
  destruct (changeUserRoomName_cells _ _ _ "" _ _ Hp Hrec) as (Hc & Hu & _).
  repeat split; trivial. now rewrite <- app_assoc.
Qed.

Lemma Join_same (w : World) (u : loc) (r : Room) (cur : User) :
  heap w !! u = Some cur -> room cur = Room_Name r ->
  Join u r w = Ok (Some (AlreadyInRoom (name cur) (Room_Name r))) w.
Proof.
  intros Hp Hr. unfold Join. run_fields Hp.
  rewrite Hr, String.eqb_refl. now run_fields Hp.
Qed.

(** The part of [Join] that follows the optional [Leave]. *)
Lemma Join_change_then_add (w0 : World) (u l : loc) (r : Room)
  (cur0 rec0 : User) :
  heap w0 !! u = Some cur0 -> users w0 !! name cur0 = Some l ->
  heap w0 !! l = Some rec0 ->
  (response <- Execute changeUserRoomName
                 [I_UserPtr u; I_string (Room_Name r)] ;;
   changeErr <- response_error response 0 ;;
   match changeErr with
   | Some e => ret (Some e)
   | None =>
       n <- field name u ;;
       sock <- field socket u ;;
       call_AddUser r n sock
   end) w0
  = call_AddUser r (name cur0) (socket cur0)
      (mkWorld (userCount w0) (users w0)
         (<[u := set_room (Room_Name r) cur0]>
            (<[l := set_room (Room_Name r) rec0]> (heap w0)))
         (roomsState w0) (calls w0)).
Proof.
  intros Hp Hl Hrec. unfold Execute.
  rewrite (bind_Ok _ _ _ _ _
             (changeUserRoomName_live _ u l (Room_Name r) _ _ Hp Hl Hrec)).
  simpl.
  set (w1 := mkWorld _ _ _ _ _).
  assert (Hp1 : heap w1 !! u = Some (set_room (Room_Name r) cur0))
    by apply lookup_insert_eq.
  unfold response_error, index; simpl.
  unfold bind at 1. simpl. now run_fields Hp1.
Qed.

(** C6.  [Join] into the room the receiver already records answers the
    already-in-room error and leaves the whole world as it was: no cell, map
    or counter changes, and nothing is added to the log of collaborator
    calls, so [AddUser] is not called. *)
Theorem Join_same_room (w : World) (u : loc) (r : Room) (cur : User) :
  heap w !! u = Some cur -> room cur = Room_Name r ->
  exists w' : World,
    Join u r w = Ok (Some (AlreadyInRoom (name cur) (Room_Name r))) w'
    /\ w' = w /\ calls w' = calls w
    /\ users w' = users w /\ heap w' = heap w /\ userCount w' = userCount w.
Proof.
  intros Hp Hr. exists w. split; [now apply Join_same|]. repeat split.
Qed.

(** C4.  [Join] into a room other than the one the receiver records, for a
    receiver whose name has a registry entry: after the optional [Leave]
    (whatever its outcome), [changeUserRoomName] run through the executor
    sets the room of the registry's record and of the receiver to the new
    room's name; only then, in that world, is [AddUser] called (no [AddUser]
    call was logged before), and [Join] answers exactly what [AddUser]
    answered.  When that answer is an error the room fields stay set to the
    new room's name: before and after the [AddUser] call the registry's
    record and the receiver are the old records with the new room's name as
    room, and [RoomName] of the receiver reads that name. *)
Theorem Join_other_room (w : World) (u l : loc) (r : Room) (cur rec : User) :
  heap w !! u = Some cur -> users w !! name cur = Some l ->
  heap w !! l = Some rec ->
  room cur <> Room_Name r ->
  exists (w0 w1 : World) (cs : list Call),
    (room cur = "" -> w0 = w)
    /\ (room cur <> "" -> exists e : option error, Leave u w = Ok e w0)
    /\ Execute changeUserRoomName [I_UserPtr u; I_string (Room_Name r)] w0
       = Ok [I_nil] w1
    /\ session w1 (name cur) = Some (set_room (Room_Name r) rec)
    /\ heap w1 !! u = Some (set_room (Room_Name r) cur)
    /\ calls w1 = (calls w ++ cs)%list /\ existsb is_AddUser cs = false
    /\ Join u r w = call_AddUser r (name cur) (socket cur) w1
    /\ forall (s' : RoomsState) (e : option error),
         Room_AddUser r (name cur) (socket cur) (roomsState w1) = (s', e) ->
         let w' := called w1 s'
                     (CallAddUser (Room_Name r) (name cur) (socket cur)) in
         Join u r w = Ok e w'
         /\ session w' (name cur) = Some (set_room (Room_Name r) rec)
         /\ heap w' !! u = Some (set_room (Room_Name r) cur)
         /\ session w1 (name cur)
            = Some (mkUser (name rec) (databaseID rec) (isGuest rec) (Room_Name r)
                      (status rec) (socket rec))
         /\ RoomName u w1 = Ok (Room_Name r) w1
         /\ session w' (name cur)
            = Some (mkUser (name rec) (databaseID rec) (isGuest rec) (Room_Name r)
                      (status rec) (socket rec))
         /\ heap w' !! u
            = Some (mkUser (name cur) (databaseID cur) (isGuest cur) (Room_Name r)
                      (status cur) (socket cur))
         /\ RoomName u w' = Ok (Room_Name r) w'.
Proof.
  intros Hp Hl Hrec Hr.
  assert (Step : exists (w0 : World) (rm rm' : string) (cs : list Call),
            (uroom <- field room u ;;
             if negb (String.eqb uroom "") then Leave u ;;; ret tt
             else ret tt) w = Ok tt w0
            /\ (room cur = "" -> w0 = w)
            /\ (room cur <> "" -> exists e, Leave u w = Ok e w0)
            /\ users w0 = users w
            /\ heap w0 !! u = Some (set_room rm cur)
            /\ heap w0 !! l = Some (set_room rm' rec)
            /\ calls w0 = (calls w ++ cs)%list /\ existsb is_AddUser cs = false).
  { run_fields Hp. destruct (decide (room cur = "")) as [E|E].
    - exists w, (room cur), (room rec), [].
      rewrite (proj2 (String.eqb_eq _ _) E). simpl.
      rewrite !set_room_same, app_nil_r. repeat split; trivial.
      intros; congruence.
    - destruct (Leave_frame _ _ _ _ _ Hp Hl Hrec)
        as (e & w0 & rm & rm' & cs & HL & Hu & _ & Hc & Hc' & Hcs & Hno).
      exists w0, rm, rm', cs.
      rewrite (proj2 (String.eqb_neq _ _) E). simpl.
      rewrite (bind_Ok _ _ _ _ _ HL). repeat split; eauto.
      intros; congruence. }
  destruct Step as (w0 & rm & rm' & cs & HS & H0 & H1 & Hu & Hc & Hc' & Hcs & Hno).
  assert (Hl0 : users w0 !! name (set_room rm cur) = Some l)
    by (rewrite Hu; exact Hl).
  pose proof (changeUserRoomName_live _ u l (Room_Name r) _ _ Hc Hl0 Hc') as L.
  pose proof (Join_change_then_add _ u l r _ _ Hc Hl0 Hc') as T.
  rewrite !set_room_idemp in L, T. simpl in T.
  destruct (changeUserRoomName_cells (heap w0) u l (Room_Name r) _ _ Hc Hc')
    as (Hcell & Hcaller & _).
  rewrite !set_room_idemp in Hcell, Hcaller.
  assert (J : Join u r w = call_AddUser r (name cur) (socket cur)
                (mkWorld (userCount w0) (users w0)
                   (<[u := set_room (Room_Name r) cur]>
                      (<[l := set_room (Room_Name r) rec]> (heap w0)))
                   (roomsState w0) (calls w0))).
  { unfold Join. run_fields Hp.
    rewrite (proj2 (String.eqb_neq _ _) Hr).
    rewrite (bind_Ok _ _ _ _ _ HS). exact T. }
  eexists w0, _, cs. split; [exact H0|]. split; [exact H1|].
  split; [exact L|]. simpl.
  assert (Hs : forall h rs c,
             session (mkWorld (userCount w0) (users w0) h rs c) (name cur)
             = h !! l).
  { intros. unfold session; simpl. rewrite Hu, Hl. reflexivity. }
  rewrite Hs. repeat split; trivial; try exact Hcaller;
    try (rewrite ?session_called, Hs; exact Hcell);
    try (unfold RoomName, field, bind, load; simpl; now rewrite Hcaller).
  rewrite J. now apply call_AddUser_eq.
Qed.

(** ** LogOut and Kick *)

(** The best-effort part of [LogOut]: it always returns, and only the
    collaborator's state and the log of calls can differ afterwards. *)
Lemma LogOut_best_effort (w : World) (u : loc) (cur : User) :
  heap w !! u = Some cur ->
  exists w1 : World,
    (if negb (String.eqb (room cur) "") then
       got <- (n <- field room u ;; call_rooms_Get n) ;;
       let (r, err) := got in
       match err with
       | None => (n <- field name u ;; call_RemoveUser r n) ;;; ret tt
       | Some _ => ret tt
       end
     else ret tt) w = Ok tt w1
    /\ users w1 = users w /\ heap w1 = heap w /\ userCount w1 = userCount w
    /\ (room cur = "" -> w1 = w)
    /\ (room cur <> "" ->
        forall (s1 : RoomsState) (r : Room) (roomErr : option error),
          rooms_Get (room cur) (roomsState w) = (s1, (r, roomErr)) ->
          (forall e : error, roomErr = Some e ->
           w1 = called w s1 (CallGet (room cur)))
          /\
          (roomErr = None ->
           forall (s2 : RoomsState) (removeErr : option error),
             Room_RemoveUser r (name cur) s1 = (s2, removeErr) ->
             w1 = called (called w s1 (CallGet (room cur))) s2
                    (CallRemoveUser (Room_Name r) (name cur)))).
Proof.
  intros Hp. destruct (decide (room cur = "")) as [Hr|Hr].
  { exists w. rewrite (proj2 (String.eqb_eq _ _) Hr). simpl.
    repeat split; trivial; intros; congruence. }
  rewrite (proj2 (String.eqb_neq _ _) Hr). simpl.
  destruct (rooms_Get (room cur) (roomsState w)) as [s1 [r roomErr]] eqn:E.
  unfold bind at 1. unfold bind at 1. rewrite (field_Some _ _ _ _ Hp).
  rewrite (call_rooms_Get_eq _ _ _ _ _ E).
  destruct roomErr as [e|].
  { eexists. split; [reflexivity|].
    repeat split; trivial; intros; simplify_eq; done. }
  destruct (Room_RemoveUser r (name cur) s1) as [s2 removeErr] eqn:E2.
  unfold bind at 1. unfold bind at 1.
  assert (Hp' : heap (called w s1 (CallGet (room cur))) !! u = Some cur)
    by exact Hp.
  rewrite (field_Some _ _ _ _ Hp').
  assert (E2' : Room_RemoveUser r (name cur)
                  (roomsState (called w s1 (CallGet (room cur))))
                = (s2, removeErr)) by exact E2.
  rewrite (call_RemoveUser_eq _ _ _ _ _ E2').
  eexists. split; [reflexivity|].
  repeat split; trivial; intros; simplify_eq; try done.
  congruence.
Qed.

(** C7.  [LogOut] has no error to return and always returns: whatever the
    room lookup and [RemoveUser] answer (their errors are dropped), the
    best-effort part leaves the registry untouched, and the last step is
    [logUserOut] of the receiver's name run through the executor, after which
    the name has no entry. *)
Theorem LogOut_spec (w : World) (u : loc) (cur : User) :
  heap w !! u = Some cur ->
  exists w1 w' : World,
    LogOut u w = Ok tt w'
    /\ Execute logUserOut [I_string (name cur)] w1 = Ok [] w'
    /\ users w1 = users w /\ heap w1 = heap w /\ userCount w1 = userCount w
    /\ users w' = delete (name cur) (users w)
    /\ session w' (name cur) = None
    /\ heap w' = heap w /\ userCount w' = userCount w
    /\ (room cur = "" -> w1 = w)
    /\ (room cur <> "" ->
        forall (s1 : RoomsState) (r : Room) (roomErr : option error),
          rooms_Get (room cur) (roomsState w) = (s1, (r, roomErr)) ->
          (forall e : error, roomErr = Some e ->
           w1 = called w s1 (CallGet (room cur)))
          /\
          (roomErr = None ->
           forall (s2 : RoomsState) (removeErr : option error),
             Room_RemoveUser r (name cur) s1 = (s2, removeErr) ->
             w1 = called (called w s1 (CallGet (room cur))) s2
                    (CallRemoveUser (Room_Name r) (name cur)))).
Proof.
  intros Hp.
  destruct (LogOut_best_effort _ _ _ Hp) as (w1 & HS & Hu & Hh & Hc & H0 & H1).
  assert (Hp1 : heap w1 !! u = Some cur) by (rewrite Hh; exact Hp).
  exists w1. eexists. split.
  { unfold LogOut. run_fields Hp. rewrite (bind_Ok _ _ _ _ _ HS).
    cbv beta. run_fields Hp1. reflexivity. }
  unfold Execute. rewrite logUserOut_eq. simpl.
  rewrite Hu, Hh, Hc. repeat split; trivial.
  - unfold session; simpl. now rewrite lookup_delete_eq.
  - now apply (H1 H2 _ _ _ H3).
  - now apply (H1 H2 _ _ _ H3).
Qed.

Lemma LogOut_registry (w : World) (u : loc) (cur : User) :
  heap w !! u = Some cur ->
  exists w' : World,
    LogOut u w = Ok tt w'
    /\ users w' = delete (name cur) (users w)
    /\ heap w' = heap w /\ userCount w' = userCount w.
Proof.
  intros Hp.
  destruct (LogOut_best_effort _ _ _ Hp) as (w1 & HS & Hu & Hh & Hc & _).
  assert (Hp1 : heap w1 !! u = Some cur) by (rewrite Hh; exact Hp).
  eexists. split.
  { unfold LogOut. run_fields Hp. rewrite (bind_Ok _ _ _ _ _ HS).
    cbv beta. run_fields Hp1. reflexivity. }
  simpl. now rewrite Hu, Hh, Hc.
Qed.

Lemma Kick_nonempty (w : World) (n : string) :
  String.length n <> 0%nat -> Kick n w = Get_then_LogOut n w.
Proof.
  intros Hn. unfold Kick, Get_then_LogOut.
  destruct (String.length n); [congruence|]. reflexivity.
Qed.

(** C3, as the code has it.  For every non-empty name [Kick] is [Get]
    followed by [LogOut] of the session [Get] returned: when the name has no
    entry it answers exactly the error of [Get] and the world is as before;
    when the name is logged in it answers [nil] and the entry of the name is
    gone, the other sessions and the counter being as before.  For the empty
    name [Kick] answers its own error and changes nothing. *)
Theorem Kick_spec (w : World) (userName : string) :
  String.length userName <> 0%nat -> wf w ->
  Kick userName w = Get_then_LogOut userName w
  /\
  (users w !! userName = None ->
   exists e : error,
     Get userName w = Ok (User_zero, Some e) w
     /\ Kick userName w = Ok (Some e) w)
  /\
  (is_Some (users w !! userName) ->
   exists w' : World,
     Kick userName w = Ok None w'
     /\ users w' = delete userName (users w)
     /\ session w' userName = None
     /\ (forall k : string, k <> userName -> session w' k = session w k)
     /\ userCount w' = userCount w)
  /\
  Kick "" w = Ok (Some (errors_New "users.Kick() requires a user name")) w.
Proof.
  intros Hn Hwf. split; [now apply Kick_nonempty|].
  rewrite (Kick_nonempty _ _ Hn). unfold Get_then_LogOut.
  split; [|split; [|reflexivity]].
  - intros E. exists (NotLoggedIn userName).
    split; [now apply Get_absent|].
    now rewrite (bind_Ok _ _ _ _ _ (Get_absent _ _ Hn E)).
  - intros [l E]. destruct (wf_session _ _ _ Hwf E) as (rec & Hl & Hname & Hs).
    rewrite (bind_Ok _ _ _ _ _ (Get_present _ _ _ Hn Hs)).
    unfold bind at 1. unfold bind at 1. unfold new.
    set (p := fresh (dom (heap w))). set (wa := mkWorld _ _ _ _ _).
    assert (Hp : heap wa !! p = Some rec) by apply lookup_insert_eq.
    destruct (LogOut_registry _ _ _ Hp) as (w' & HL & Hu & Hh & Hc).
    rewrite HL. exists w'. split; [reflexivity|].
    rewrite Hname in Hu. simpl in Hu, Hh, Hc.
    repeat split; trivial.
    + unfold session. rewrite Hu, lookup_delete_eq. reflexivity.
    + intros k Hk. unfold session. rewrite Hu, Hh, lookup_delete_ne by done.
      destruct (users w !! k) as [q|] eqn:Ek; [|reflexivity]. simpl.
      destruct (Hwf _ _ Ek) as (v & Hv & _).
      rewrite lookup_insert_ne; [reflexivity|].
      intros <-. unfold p in Hv. rewrite fresh_heap_None in Hv. discriminate.
Qed.

(** ** Login *)

Lemma Login_rejects_low_id (c : bool) (w : World) (userName : string)
  (dbID : Z) (guest : bool) (sock : Conn) :
  String.length userName <> 0%nat -> dbID < -1 ->
  Login c userName dbID guest sock w
  = Ok (User_zero,
        Some (errors_New
                "users.Login() requires a database ID (or -1 for no ID)")) w.
Proof.
  intros Hn Hd. unfold Login.
  destruct (String.length userName); [congruence|]. simpl.
  now rewrite (proj2 (Z.ltb_lt _ _) Hd).
Qed.

Lemma Login_accepted (c : bool) (w : World) (userName : string) (dbID : Z)
  (guest : bool) (sock : Conn) :
  String.length userName <> 0%nat -> -1 <= dbID -> sock <> None ->
  users w !! userName = None ->
  Login c userName dbID guest sock w
  = Ok (mkUser userName (if guest then -1 else dbID) guest "" 0 sock, None)
      (mkWorld (int64_wrap (userCount w + 1))
         (<[userName := fresh (dom (heap w))]> (users w))
         (<[fresh (dom (heap w))
            := mkUser userName (if guest then -1 else dbID) guest "" 0 sock]>
            (heap w))
         (roomsState w) (calls w)).
Proof.
  intros Hn Hd Hs E. unfold Login, Execute.
  destruct (String.length userName); [congruence|]. simpl.
  rewrite (proj2 (Z.ltb_ge _ _) Hd).
  destruct sock as [c0|]; [|congruence].
  now rewrite (bind_Ok _ _ _ _ _ (loginUser_free _ _ _ _ _ E)).
Qed.

(** C9.  A [Login] call with [isGuest] true that passes the argument checks
    for a name without an entry returns, and stores under the name, a record
    whose [databaseID] is -1 whatever ID was supplied: the action is run with
    -1 in the place of the ID.  Moreover every guest [Login] call that
    reports no error (the inner branch of the source not being taken)
    returns such a record and has it stored. *)
Theorem Login_guest_databaseID (c : bool) (w : World) (userName : string)
  (dbID : Z) (sock : Conn) :
  (String.length userName <> 0%nat -> -1 <= dbID -> sock <> None ->
   users w !! userName = None ->
   exists (rec : User) (w' : World),
     Login c userName dbID true sock w = Ok (rec, None) w'
     /\ databaseID rec = -1 /\ isGuest rec = true
     /\ session w' userName = Some rec
     /\ Execute loginUser
          [I_string userName; I_int64 (-1); I_bool true; I_Conn sock] w
        = Ok [I_User rec; I_nil] w')
  /\
  (forall (rec : User) (w' : World),
     Login false userName dbID true sock w = Ok (rec, None) w' ->
     databaseID rec = -1 /\ session w' userName = Some rec).
Proof.
  split.
  - intros Hn Hd Hs E. eexists _, _.
    split; [apply (Login_accepted c _ _ _ true _ Hn Hd Hs E)|].
    unfold Execute. rewrite (loginUser_free _ _ _ _ _ E).
    repeat split. unfold session; simpl.
    rewrite lookup_insert_eq; simpl. apply lookup_insert_eq.
  - intros rec w'.
    destruct (Nat.eq_dec (String.length userName) 0%nat) as [Hn|Hn].
    { unfold Login. rewrite Hn. discriminate. }
    destruct (Z_lt_le_dec dbID (-1)) as [Hd|Hd].
    { rewrite (Login_rejects_low_id _ _ _ _ _ _ Hn Hd). discriminate. }
    destruct sock as [c0|].
    2:{ unfold Login. destruct (String.length userName); [congruence|].
        simpl. rewrite (proj2 (Z.ltb_ge _ _) Hd). discriminate. }
    destruct (users w !! userName) as [l|] eqn:E.
    + unfold Login, Execute. destruct (String.length userName); [congruence|].
      simpl. rewrite (proj2 (Z.ltb_ge _ _) Hd).
      rewrite (bind_Ok _ _ _ _ _
                 (loginUser_taken _ _ _ _ _ (mk_is_Some _ _ E))).
      discriminate.
    + rewrite (Login_accepted false w userName dbID true (Some c0) Hn Hd
                 ltac:(discriminate) E).
      intros [= <- <-]. split; [reflexivity|].
      unfold session; simpl.
      rewrite lookup_insert_eq; simpl. apply lookup_insert_eq.
Qed.

(** * Further properties of the package *)

(** ** Relations kept by the operations *)

Lemma keeps_ret {A} (R : World -> World -> Prop) (a : A) :
  (forall w, R w w) -> keeps R (ret a).
Proof. intros Hr w b w' [= _ <-]. apply Hr. Qed.

Lemma keeps_panic {A} (R : World -> World -> Prop) (msg : string) :
  keeps R (panic (A:=A) msg).
Proof. intros w a w'. discriminate. Qed.

Lemma keeps_bind {A B} (R : World -> World -> Prop) (m : M A)
  (k : A -> M B) :
  (forall w1 w2 w3, R w1 w2 -> R w2 w3 -> R w1 w3) ->
  keeps R m -> (forall a, keeps R (k a)) -> keeps R (bind m k).
Proof.
  intros Ht Hm Hk w b w'. unfold bind.
  destruct (m w) as [a w1|] eqn:E; [|discriminate].
  intros Hb. exact (Ht _ _ _ (Hm _ _ _ E) (Hk _ _ _ _ Hb)).
Qed.

(** Operations that only read. *)
Lemma keeps_read {A} (R : World -> World -> Prop) (m : M A) :
  (forall w, R w w) ->
  (forall w a w', m w = Ok a w' -> w' = w) -> keeps R m.
Proof. intros Hr Hm w a w' E. rewrite (Hm _ _ _ E). apply Hr. Qed.

Lemma load_reads (p : loc) (w : World) (u : User) (w' : World) :
  load p w = Ok u w' -> w' = w.
Proof. unfold load. destruct (heap w !! p); now intros [= _ <-]. Qed.

Lemma users_at_reads (k : string) (w : World) (l : loc) (w' : World) :
  users_at k w = Ok l w' -> w' = w.
Proof. unfold users_at. destruct (users w !! k); now intros [= _ <-]. Qed.

Lemma index_reads (p : list iface) (i : nat) (w : World) (v : iface)
  (w' : World) :
  index p i w = Ok v w' -> w' = w.
Proof. unfold index. destruct (nth_error p i); now intros [= _ <-]. Qed.

Section Frame.
Variable R : World -> World -> Prop.
Hypothesis HR : frame_rel R.

Lemma keeps_load (p : loc) : keeps R (load p).
Proof. apply keeps_read; [apply HR | apply load_reads]. Qed.

Lemma keeps_users_at (k : string) : keeps R (users_at k).
Proof. apply keeps_read; [apply HR | apply users_at_reads]. Qed.

Lemma keeps_users_lookup (k : string) : keeps R (users_lookup k).
Proof. intros w a w' [= _ <-]. apply HR. Qed.

Lemma keeps_index (p : list iface) (i : nat) : keeps R (index p i).
Proof. apply keeps_read; [apply HR | apply index_reads]. Qed.

Lemma keeps_call_rooms_Get (n : string) : keeps R (call_rooms_Get n).
Proof.
  intros w a w'. unfold call_rooms_Get.
  destruct (rooms_Get n (roomsState w)) as [s r]. intros [= _ <-].
  apply (fr_called R HR).
Qed.

Lemma keeps_call_RemoveUser (r : Room) (n : string) :
  keeps R (call_RemoveUser r n).
Proof.
  intros w a w'. unfold call_RemoveUser.
  destruct (Room_RemoveUser r n (roomsState w)) as [s e]. intros [= _ <-].
  apply (fr_called R HR).
Qed.

Lemma keeps_call_AddUser (r : Room) (n : string) (c : Conn) :
  keeps R (call_AddUser r n c).
Proof.
  intros w a w'. unfold call_AddUser.
  destruct (Room_AddUser r n c (roomsState w)) as [s e]. intros [= _ <-].
  apply (fr_called R HR).
Qed.

(** Breaking an operation down to the primitives it is made of. *)
Ltac keeps_steps :=
  repeat first
    [ apply keeps_ret; apply HR
    | apply keeps_panic
    | apply keeps_load | apply keeps_users_at | apply keeps_users_lookup
    | apply keeps_index
    | apply keeps_call_rooms_Get | apply keeps_call_RemoveUser
    | apply keeps_call_AddUser
    | apply (fr_store_room R HR) | apply (fr_new R HR)
    | match goal with Hk : context [keeps] |- _ => apply Hk end
    | progress unfold as_string, as_int64, as_bool, as_Conn, as_User,
        as_UserPtr, as_error
    | apply keeps_bind; [ apply (fr_trans R HR) | | intros ? ]
    | match goal with
      | |- keeps _ (if ?b then _ else _) => destruct b
      | |- keeps _ (match ?x with _ => _ end) => destruct x
      end ].

Lemma keeps_field {A} (f : User -> A) (p : loc) : keeps R (field f p).
Proof. unfold field. keeps_steps. Qed.

Lemma keeps_response_error (response : list iface) (i : nat) :
  keeps R (response_error response i).
Proof. unfold response_error, as_error. keeps_steps. Qed.

Lemma keeps_getUser (p : list iface) : keeps R (getUser p).
Proof. unfold getUser, as_string. keeps_steps. Qed.

Lemma keeps_changeUserRoomName (p : list iface) :
  keeps R (changeUserRoomName p).
Proof. unfold changeUserRoomName, as_string, as_UserPtr. keeps_steps. Qed.

Lemma keeps_Get (n : string) : keeps R (Get n).
Proof.
  unfold Get, Execute, as_User.
  pose proof keeps_getUser. pose proof keeps_response_error. keeps_steps.
Qed.

Lemma keeps_Leave (u : loc) : keeps R (Leave u).
Proof.
  unfold Leave, Execute.
  pose proof keeps_changeUserRoomName. pose proof keeps_response_error.
  pose proof (@keeps_field string). keeps_steps.
Qed.

Lemma keeps_Join (u : loc) (r : Room) : keeps R (Join u r).
Proof.
  unfold Join, Execute.
  pose proof keeps_changeUserRoomName. pose proof keeps_response_error.
  pose proof (@keeps_field string). pose proof (@keeps_field Conn).
  pose proof keeps_Leave. keeps_steps.
Qed.

(** [LogOut] and [Kick] delete an entry, [Login] stores one: they keep the
    relations that hold across these steps. *)
Lemma keeps_LogOut (u : loc) :
  (forall p, keeps R (logUserOut p)) -> keeps R (LogOut u).
Proof.
  intros Hout. unfold LogOut, Execute.
  pose proof (@keeps_field string). keeps_steps.
Qed.

Lemma keeps_Kick (n : string) :
  (forall p, keeps R (logUserOut p)) -> keeps R (Kick n).
Proof.
  intros Hout. unfold Kick.
  pose proof keeps_Get. pose proof (fun u => keeps_LogOut u Hout).
  keeps_steps.
Qed.

Lemma keeps_Login (c : bool) (n : string) (d : Z) (g : bool) (s : Conn) :
  (forall p, keeps R (loginUser p)) -> keeps R (Login c n d g s).
Proof.
  intros Hin. unfold Login, Execute, as_error, as_User. keeps_steps.
Qed.

End Frame.

Lemma wf_new (w w' : World) (u : User) (p : loc) :
  wf w -> new u w = Ok p w' -> wf w'.
Proof.
  intros Hwf [= <- <-]. intros k l Hk; simpl in *.
  destruct (Hwf _ _ Hk) as (v & Hv & Hn). exists v. split; trivial.
  rewrite lookup_insert_ne; trivial.
  intros <-. rewrite fresh_heap_None in Hv. discriminate.
Qed.

Lemma frame_rel_wf : frame_rel R_wf.
Proof.
  split; unfold R_wf.
  - auto.
  - auto.
  - intros p rn w [] w' E Hwf. eauto using wf_store_room.
  - intros u w p w' E Hwf. eauto using wf_new.
  - intros w s c Hwf. exact Hwf.
Qed.

Lemma frame_rel_cells : frame_rel R_cells.
Proof.
  split; unfold R_cells.
  - intros w p u Hp. exists (room u). now rewrite set_room_same.
  - intros w1 w2 w3 H12 H23 p u Hp.
    destruct (H12 _ _ Hp) as (rm & Hp2).
    destruct (H23 _ _ Hp2) as (rm' & Hp3). exists rm'.
    now rewrite Hp3, set_room_idemp.
  - intros p rn w [] w'. unfold store_room.
    destruct (heap w !! p) as [v|] eqn:Hv; [|discriminate].
    intros [= <-] q u Hq; simpl.
    destruct (decide (p = q)) as [->|Hne].
    + rewrite lookup_insert_eq. exists rn. congruence.
    + rewrite lookup_insert_ne by done. exists (room u).
      now rewrite set_room_same.
  - intros u w p w' [= <- <-] q v Hq; simpl.
    exists (room v). rewrite set_room_same, lookup_insert_ne; trivial.
    intros <-. rewrite fresh_heap_None in Hq. discriminate.
  - intros w s c p u Hp. exists (room u). now rewrite set_room_same.
Qed.

Lemma frame_rel_count : frame_rel R_count.
Proof.
  split; unfold R_count.
  - reflexivity.
  - intros. congruence.
  - intros p rn w [] w'. unfold store_room.
    destruct (heap w !! p); [|discriminate]. now intros [= <-].
  - now intros u w p w' [= <- <-].
  - reflexivity.
Qed.

Lemma frame_rel_users : frame_rel R_users.
Proof.
  split; unfold R_users.
  - reflexivity.
  - intros. congruence.
  - intros p rn w [] w'. unfold store_room.
    destruct (heap w !! p); [|discriminate]. now intros [= <-].
  - now intros u w p w' [= <- <-].
  - reflexivity.
Qed.

(** The two actions that change the map. *)
Lemma logUserOut_inv (p out : list iface) (w w' : World) :
  logUserOut p w = Ok out w' ->
  exists n : string,
    w' = mkWorld (userCount w) (delete n (users w)) (heap w)
           (roomsState w) (calls w).
Proof.
  unfold logUserOut, bind, index.
  destruct p as [|[] p]; simpl; try discriminate.
  intros [= _ <-]. eauto.
Qed.

Lemma loginUser_inv (p out : list iface) (w w' : World) :
  loginUser p w = Ok out w' ->
  w' = w
  \/ exists (n : string) (d : Z) (g : bool) (s : Conn) (rest : list iface),
       p = I_string n :: I_int64 d :: I_bool g :: I_Conn s :: rest
       /\ users w !! n = None
       /\ w' = mkWorld (int64_wrap (userCount w + 1))
                 (<[n := fresh (dom (heap w))]> (users w))
                 (<[fresh (dom (heap w)) := mkUser n d g "" 0 s]> (heap w))
                 (roomsState w) (calls w).
Proof.
  unfold loginUser, bind, index.
  destruct p as [|[] [|[] [|[] [|[] p]]]]; simpl; try discriminate.
  unfold users_lookup. destruct (users w !! s) eqn:E; simpl.
  - intros [= _ <-]. now left.
  - unfold userCount_incr, new, users_store, users_at, load; simpl.
    rewrite lookup_insert_eq; simpl. rewrite lookup_insert_eq; simpl.
    intros [= _ <-]. right. eauto 10.
Qed.

Lemma keeps_wf_logUserOut (p : list iface) : keeps R_wf (logUserOut p).
Proof. intros w a w' E Hwf. eauto using wf_logUserOut. Qed.

Lemma keeps_wf_loginUser (p : list iface) : keeps R_wf (loginUser p).
Proof. intros w a w' E Hwf. eauto using wf_loginUser. Qed.

Lemma keeps_cells_logUserOut (p : list iface) : keeps R_cells (logUserOut p).
Proof.
  intros w a w' E. destruct (logUserOut_inv _ _ _ _ E) as (n & ->).
  intros q u Hq. exists (room u). now rewrite set_room_same.
Qed.

Lemma keeps_cells_loginUser (p : list iface) : keeps R_cells (loginUser p).
Proof.
  intros w a w' E.
  destruct (loginUser_inv _ _ _ _ E) as [->|(n & d & g & s & rest & _ & _ & ->)].
  - apply (fr_refl _ frame_rel_cells).
  - intros q u Hq; simpl. exists (room u).
    rewrite set_room_same, lookup_insert_ne; trivial.
    intros <-. rewrite fresh_heap_None in Hq. discriminate.
Qed.

Lemma keeps_count_logUserOut (p : list iface) : keeps R_count (logUserOut p).
Proof.
  intros w a w' E. destruct (logUserOut_inv _ _ _ _ E) as (n & ->).
  reflexivity.
Qed.

Lemma frame_rel_shrinks : frame_rel R_shrinks.
Proof.
  split; unfold R_shrinks.
  - auto.
  - auto.
  - intros p rn w [] w'. unfold store_room.
    destruct (heap w !! p); [|discriminate]. now intros [= <-].
  - now intros u w p w' [= <- <-].
  - auto.
Qed.

Lemma keeps_shrinks_logUserOut (p : list iface) :
  keeps R_shrinks (logUserOut p).
Proof.
  intros w a w' E. destruct (logUserOut_inv _ _ _ _ E) as (n & ->).
  intros k l; simpl. intros Hk. now apply lookup_delete_Some in Hk as [_ Hk].
Qed.

(** What a [Login] that returns has done: nothing, or the one insertion. *)
Lemma Login_cases (c : bool) (n : string) (d : Z) (g : bool) (s : Conn)
  (a : User * option error) (w w' : World) :
  Login c n d g s w = Ok a w' ->
  w' = w
  \/ (String.length n <> 0%nat /\ -1 <= d /\ s <> None
      /\ users w !! n = None
      /\ a = (mkUser n (if g then -1 else d) g "" 0 s, None)
      /\ w' = mkWorld (int64_wrap (userCount w + 1))
                (<[n := fresh (dom (heap w))]> (users w))
                (<[fresh (dom (heap w))
                   := mkUser n (if g then -1 else d) g "" 0 s]> (heap w))
                (roomsState w) (calls w)).
Proof.
  destruct (Nat.eq_dec (String.length n) 0%nat) as [Hn|Hn].
  { unfold Login. rewrite Hn. simpl. intros [= _ <-]. now left. }
  destruct (Z_lt_le_dec d (-1)) as [Hd|Hd].
  { rewrite (Login_rejects_low_id _ _ _ _ _ _ Hn Hd). intros [= _ <-].
    now left. }
  destruct s as [c0|].
  2:{ unfold Login. destruct (String.length n); [congruence|].
      simpl. rewrite (proj2 (Z.ltb_ge _ _) Hd). intros [= _ <-]. now left. }
  destruct (users w !! n) as [l|] eqn:E.
  - unfold Login, Execute. destruct (String.length n); [congruence|].
    simpl. rewrite (proj2 (Z.ltb_ge _ _) Hd).
    rewrite (bind_Ok _ _ _ _ _
               (loginUser_taken _ _ _ _ _ (mk_is_Some _ _ E))).
    simpl. destruct c; intros [= _ <-]; now left.
  - rewrite (Login_accepted c w n d g (Some c0) Hn Hd ltac:(discriminate) E).
    intros [= <- <-]. right. repeat split; trivial. discriminate.
Qed.

Lemma step_cells (w w' : World) : step w w' -> R_cells w w'.
Proof.
  pose proof frame_rel_cells as F.
  intros [u p w1 w2 E|c n d g s a w1 w2 E|n a w1 w2 E|u r a w1 w2 E
         |u a w1 w2 E|u w1 w2 E|n a w1 w2 E].
  - exact (fr_new _ F _ _ _ _ E).
  - exact (keeps_Login _ F _ _ _ _ _ keeps_cells_loginUser _ _ _ E).
  - exact (keeps_Get _ F _ _ _ _ E).
  - exact (keeps_Join _ F _ _ _ _ _ E).
  - exact (keeps_Leave _ F _ _ _ _ E).
  - exact (keeps_LogOut _ F _ keeps_cells_logUserOut _ _ _ E).
  - exact (keeps_Kick _ F _ keeps_cells_logUserOut _ _ _ E).
Qed.

(** X1.  Every use of the package keeps the registry well formed: each entry
    points at an allocated cell that carries the entry's key as its name. *)
Theorem step_keeps_wf (w w' : World) : step w w' -> wf w -> wf w'.
Proof.
  pose proof frame_rel_wf as F.
  intros [u p w1 w2 E|c n d g s a w1 w2 E|n a w1 w2 E|u r a w1 w2 E
         |u a w1 w2 E|u w1 w2 E|n a w1 w2 E].
  - exact (fr_new _ F _ _ _ _ E).
  - exact (keeps_Login _ F _ _ _ _ _ keeps_wf_loginUser _ _ _ E).
  - exact (keeps_Get _ F _ _ _ _ E).
  - exact (keeps_Join _ F _ _ _ _ _ E).
  - exact (keeps_Leave _ F _ _ _ _ E).
  - exact (keeps_LogOut _ F _ keeps_wf_logUserOut _ _ _ E).
  - exact (keeps_Kick _ F _ keeps_wf_logUserOut _ _ _ E).
Qed.

(** X2.  No use of the package frees a cell or changes anything but the room of
    a cell: name, database ID, guest flag, status and socket of every [User]
    value, the registry's and the callers', stay what they were. *)
Theorem step_changes_rooms_only (w w' : World) (p : loc) (u : User) :
  step w w' -> heap w !! p = Some u ->
  exists u' : User,
    heap w' !! p = Some u'
    /\ name u' = name u /\ databaseID u' = databaseID u
    /\ isGuest u' = isGuest u /\ status u' = status u
    /\ socket u' = socket u.
Proof.
  intros Hs Hp. destruct (step_cells _ _ Hs _ _ Hp) as (rm & Hp').
  exists (set_room rm u). repeat split; trivial.
Qed.

(** X3.  [Get], [Join] and [Leave] never add or remove a registry entry and never
    touch the counter, whatever the collaborator answers; [LogOut] and [Kick]
    never add an entry and never touch the counter. *)
Theorem registry_shape_kept (w w' : World) :
  (forall n a, Get n w = Ok a w' ->
     users w' = users w /\ userCount w' = userCount w)
  /\ (forall u r a, Join u r w = Ok a w' ->
       users w' = users w /\ userCount w' = userCount w)
  /\ (forall u a, Leave u w = Ok a w' ->
       users w' = users w /\ userCount w' = userCount w)
  /\ (forall u, LogOut u w = Ok tt w' ->
       (forall k l, users w' !! k = Some l -> users w !! k = Some l)
       /\ userCount w' = userCount w)
  /\ (forall n a, Kick n w = Ok a w' ->
       (forall k l, users w' !! k = Some l -> users w !! k = Some l)
       /\ userCount w' = userCount w).
Proof.
  pose proof frame_rel_users as FU. pose proof frame_rel_count as FC.
  pose proof frame_rel_shrinks as FS.
  split; [|split; [|split; [|split]]].
  - intros n a E. split.
    + exact (keeps_Get _ FU _ _ _ _ E).
    + exact (keeps_Get _ FC _ _ _ _ E).
  - intros u r a E. split.
    + exact (keeps_Join _ FU _ _ _ _ _ E).
    + exact (keeps_Join _ FC _ _ _ _ _ E).
  - intros u a E. split.
    + exact (keeps_Leave _ FU _ _ _ _ E).
    + exact (keeps_Leave _ FC _ _ _ _ E).
  - intros u E. split.
    + exact (keeps_LogOut _ FS _ keeps_shrinks_logUserOut _ _ _ E).
    + exact (keeps_LogOut _ FC _ keeps_count_logUserOut _ _ _ E).
  - intros n a E. split.
    + exact (keeps_Kick _ FS _ keeps_shrinks_logUserOut _ _ _ E).
    + exact (keeps_Kick _ FC _ keeps_count_logUserOut _ _ _ E).
Qed.

(** ** The invariant of the reachable worlds *)

Lemma registry_inv_transfer (w w' : World) :
  registry_inv w -> R_shrinks w w' -> R_cells w w' -> registry_inv w'.
Proof.
  intros [He Hall] Hsub Hcells. split.
  - destruct (users w' !! "") as [l|] eqn:E; [|reflexivity].
    rewrite (Hsub _ _ E) in He. discriminate.
  - intros k l Hk. destruct (Hall _ _ (Hsub _ _ Hk)) as (rec & Hl & Hrec).
    destruct (Hcells _ _ Hl) as (rm & Hl'). exists (set_room rm rec).
    split; [exact Hl'|exact Hrec].
Qed.

Lemma registry_inv_Login (c : bool) (n : string) (d : Z) (g : bool)
  (s : Conn) (a : User * option error) (w w' : World) :
  Login c n d g s w = Ok a w' -> registry_inv w -> registry_inv w'.
Proof.
  intros E [He Hall].
  destruct (Login_cases _ _ _ _ _ _ _ _ E)
    as [->|(Hn & Hd & Hs & Hfree & _ & ->)]; [now split|].
  split; simpl.
  - rewrite lookup_insert_ne; trivial. intros ->. now apply Hn.
  - intros k l. destruct (decide (n = k)) as [->|Hne].
    + rewrite lookup_insert_eq. intros [= <-]. rewrite lookup_insert_eq.
      eexists. split; [reflexivity|]. simpl. repeat split; trivial.
      * destruct g; lia.
      * now intros ->.
    + rewrite lookup_insert_ne by done. intros Hk.
      destruct (Hall _ _ Hk) as (rec & Hl & Hrec). exists rec.
      split; [|exact Hrec]. rewrite lookup_insert_ne; trivial.
      intros <-. rewrite fresh_heap_None in Hl. discriminate.
Qed.

Lemma registry_inv_step (w w' : World) :
  step w w' -> registry_inv w -> registry_inv w'.
Proof.
  intros Hs Hinv. pose proof (step_cells _ _ Hs) as Hcells.
  pose proof frame_rel_shrinks as F.
  destruct Hs as [u p w1 w2 E|c n d g s a w1 w2 E|n a w1 w2 E|u r a w1 w2 E
                 |u a w1 w2 E|u w1 w2 E|n a w1 w2 E].
  - exact (registry_inv_transfer _ _ Hinv (fr_new _ F _ _ _ _ E) Hcells).
  - exact (registry_inv_Login _ _ _ _ _ _ _ _ E Hinv).
  - exact (registry_inv_transfer _ _ Hinv (keeps_Get _ F _ _ _ _ E) Hcells).
  - exact (registry_inv_transfer _ _ Hinv (keeps_Join _ F _ _ _ _ _ E) Hcells).
  - exact (registry_inv_transfer _ _ Hinv (keeps_Leave _ F _ _ _ _ E) Hcells).
  - exact (registry_inv_transfer _ _ Hinv
             (keeps_LogOut _ F _ keeps_shrinks_logUserOut _ _ _ E) Hcells).
  - exact (registry_inv_transfer _ _ Hinv
             (keeps_Kick _ F _ keeps_shrinks_logUserOut _ _ _ E) Hcells).
Qed.

(** X4.  In every world the package can reach from the empty registry, no user
    is registered under the empty name, and every registry entry points at
    an allocated record that carries the entry's key as its name, a database
    ID of at least -1 (exactly -1 for a guest), the status
    [StatusAvailable] and a socket that is not [nil]. *)
Theorem reachable_registry_inv (w : World) :
  reachable w -> registry_inv w.
Proof.
  induction 1 as [s|w w' _ IH Hs].
  - split; simpl; [apply lookup_empty|].
    intros k l Hk. rewrite lookup_empty in Hk. discriminate.
  - exact (registry_inv_step _ _ Hs IH).
Qed.

Lemma registry_inv_wf (w : World) : registry_inv w -> wf w.
Proof.
  intros [_ Hall] k l Hk. destruct (Hall _ _ Hk) as (rec & Hl & Hn & _).
  eauto.
Qed.

(** ** Login: the argument checks and the outcomes *)

Lemma Login_taken (w : World) (n : string) (d : Z) (g : bool) (s : Conn) :
  String.length n <> 0%nat -> -1 <= d -> s <> None ->
  is_Some (users w !! n) ->
  Login false n d g s w = Ok (User_zero, Some (AlreadyLoggedIn n)) w.
Proof.
  intros Hn Hd Hs E. unfold Login, Execute.
  destruct (String.length n); [congruence|]. simpl.
  rewrite (proj2 (Z.ltb_ge _ _) Hd).
  destruct s as [c0|]; [|congruence].
  now rewrite (bind_Ok _ _ _ _ _ (loginUser_taken _ _ _ _ _ E)).
Qed.

(** X5.  [Login] checks its arguments in the order name, database ID, socket,
    and only then asks the registry.  Each rejection answers [User{}] with
    its own error and leaves the world as it was; a call that passes the
    checks for a free name is the only one that succeeds.  (The duplicate
    case is stated for the inner branch of the source not being taken.) *)
Theorem Login_outcomes (c : bool) (w : World) (n : string) (d : Z)
  (g : bool) (s : Conn) :
  (String.length n = 0%nat ->
   Login c n d g s w
   = Ok (User_zero, Some (errors_New "users.Login() requires a user name")) w)
  /\
  (String.length n <> 0%nat -> d < -1 ->
   Login c n d g s w
   = Ok (User_zero,
         Some (errors_New
                 "users.Login() requires a database ID (or -1 for no ID)")) w)
  /\
  (String.length n <> 0%nat -> -1 <= d -> s = None ->
   Login c n d g s w
   = Ok (User_zero, Some (errors_New "users.Login() requires a socket")) w)
  /\
  (String.length n <> 0%nat -> -1 <= d -> s <> None ->
   is_Some (users w !! n) ->
   Login false n d g s w = Ok (User_zero, Some (AlreadyLoggedIn n)) w)
  /\
  (String.length n <> 0%nat -> -1 <= d -> s <> None ->
   users w !! n = None ->
   exists w' : World,
     Login c n d g s w
     = Ok (mkUser n (if g then -1 else d) g "" StatusAvailable s, None) w'
     /\ session w' n
        = Some (mkUser n (if g then -1 else d) g "" StatusAvailable s)
     /\ w' <> w).
Proof.
  split; [|split; [|split; [|split]]].
  - intros Hn. unfold Login. now rewrite Hn.
  - apply Login_rejects_low_id.
  - intros Hn Hd ->. unfold Login.
    destruct (String.length n); [congruence|]. simpl.
    now rewrite (proj2 (Z.ltb_ge _ _) Hd).
  - apply Login_taken.
  - intros Hn Hd Hs E. eexists.
    split; [apply (Login_accepted c _ _ _ g _ Hn Hd Hs E)|]. split.
    + unfold session; simpl. rewrite lookup_insert_eq; simpl.
      apply lookup_insert_eq.
    + intros Heq. apply (f_equal users) in Heq. simpl in Heq.
      apply (f_equal (fun m => m !! n)) in Heq.
      rewrite lookup_insert_eq, E in Heq. discriminate.
Qed.

(** ** The counter *)

Lemma int64_wrap_range (z : Z) : - 2 ^ 63 <= int64_wrap z < 2 ^ 63.
Proof.
  unfold int64_wrap.
  pose proof (Z.mod_pos_bound (z + 2 ^ 63) (2 ^ 64) ltac:(lia)). lia.
Qed.

(** X6.  After a successful [loginUser] the counter is again an [int64] value;
    it is one more than before, except at the largest [int64], where it
    becomes the smallest. *)
Theorem loginUser_counter (w : World) (n : string) (d : Z) (g : bool)
  (s : Conn) :
  users w !! n = None -> - 2 ^ 63 <= userCount w < 2 ^ 63 ->
  exists (out : list iface) (w' : World),
    Execute loginUser [I_string n; I_int64 d; I_bool g; I_Conn s] w
    = Ok out w'
    /\ - 2 ^ 63 <= userCount w' < 2 ^ 63
    /\ (userCount w < 2 ^ 63 - 1 -> userCount w' = userCount w + 1)
    /\ (userCount w = 2 ^ 63 - 1 -> userCount w' = - 2 ^ 63).
Proof.
  intros E Hr. unfold Execute. rewrite (loginUser_free _ _ _ _ _ E).
  eexists _, _. split; [reflexivity|]. simpl.
  split; [apply int64_wrap_range|]. split.
  - intros Hlt. apply int64_wrap_small. lia.
  - intros ->. reflexivity.
Qed.

(** ** RoomUser *)

Lemma Get_error_zero (n : string) (w w' : World) (u : User) (e : error) :
  Get n w = Ok (u, Some e) w' -> u = User_zero.
Proof.
  unfold Get, Execute.
  destruct (String.length n); [now intros [= <- _ _]|]. simpl.
  destruct (users w !! n) as [l|] eqn:E.
  - unfold bind at 1. rewrite (getUser_present _ _ _ E).
    destruct (heap w !! l); [|discriminate]. discriminate.
  - rewrite (bind_Ok _ _ _ _ _ (getUser_absent _ _ E)). now intros [= <- _ _].
Qed.

(** X7.  [RoomUser] answers exactly what [Get] answers for the name of the room
    user, in every world: its own error check changes nothing, because [Get]
    already answers [User{}] beside an error. *)
Theorem RoomUser_is_Get (RoomUserT : Type) (RoomUser_Name : RoomUserT -> string)
  (ru : RoomUserT) (w : World) :
  RoomUser RoomUserT RoomUser_Name ru w = Get (RoomUser_Name ru) w.
Proof.
  unfold RoomUser, bind.
  destruct (Get (RoomUser_Name ru) w) as [[u [e|]] w'|] eqn:E; trivial.
  now rewrite (Get_error_zero _ _ _ _ _ E).
Qed.

(** ** Sessions that are no longer logged in *)

Lemma change_absent_error (w : World) (u : loc) (rn : string) (cur : User) :
  heap w !! u = Some cur -> users w !! name cur = None ->
  (response <- Execute changeUserRoomName [I_UserPtr u; I_string rn] ;;
   response_error response 0) w
  = Ok (Some (NotLoggedIn (name cur))) w.
Proof.
  intros Hp E. unfold Execute.
  now rewrite (bind_Ok _ _ _ _ _ (changeUserRoomName_absent _ _ rn _ Hp E)).
Qed.

Lemma Leave_absent_frame (w : World) (u : loc) (cur : User) :
  heap w !! u = Some cur -> users w !! name cur = None ->
  exists (e : error) (w0 : World) (cs : list Call),
    Leave u w = Ok (Some e) w0
    /\ heap w0 = heap w /\ users w0 = users w /\ userCount w0 = userCount w
    /\ calls w0 = (calls w ++ cs)%list /\ existsb is_AddUser cs = false.
Proof.
  intros Hp E.
  destruct (decide (room cur = "")) as [Hr|Hr].
  { exists (NotInRoom (name cur)), w, []. rewrite app_nil_r.
    repeat split; trivial. now apply Leave_no_room. }
  destruct (rooms_Get (room cur) (roomsState w)) as [s1 [r roomErr]] eqn:E1.
  rewrite (Leave_in_room _ _ _ _ _ _ Hp Hr E1).
  destruct roomErr as [e|].
  { exists e, (called w s1 (CallGet (room cur))), [CallGet (room cur)].
    repeat split; trivial. }
  destruct (Room_RemoveUser r (name cur) s1) as [s2 removeErr] eqn:E2.
  assert (E2' : Room_RemoveUser r (name cur)
                  (roomsState (called w s1 (CallGet (room cur))))
                = (s2, removeErr)) by exact E2.
  rewrite (bind_Ok _ _ _ _ _ (call_RemoveUser_eq _ _ _ _ _ E2')).
  destruct removeErr as [e|].
  { eexists e, _, [CallGet (room cur); CallRemoveUser (Room_Name r) (name cur)].
    split; [reflexivity|]. simpl. repeat split; trivial.
    now rewrite <- app_assoc. }
  rewrite (change_absent_error
             (called (called w s1 (CallGet (room cur))) s2
                (CallRemoveUser (Room_Name r) (name cur))) u "" cur Hp E).
  eexists _, _, [CallGet (room cur); CallRemoveUser (Room_Name r) (name cur)].
  split; [reflexivity|]. simpl. repeat split; trivial.
  now rewrite <- app_assoc.
Qed.

(** X8.  [Leave] through a [User] whose name has no registry entry never
    succeeds and never writes a room, so the caller's copy keeps the room it
    recorded; when the room is found and [RemoveUser] goes through, the
    collaborator has dropped the user all the same and the answer is the
    not-logged-in error. *)
Theorem Leave_logged_out (w : World) (u : loc) (cur : User) :
  heap w !! u = Some cur -> users w !! name cur = None ->
  (exists (e : error) (w' : World),
     Leave u w = Ok (Some e) w'
     /\ heap w' = heap w /\ users w' = users w
     /\ userCount w' = userCount w)
  /\
  (room cur <> "" ->
   forall (s1 s2 : RoomsState) (r : Room),
     rooms_Get (room cur) (roomsState w) = (s1, (r, None)) ->
     Room_RemoveUser r (name cur) s1 = (s2, None) ->
     Leave u w
     = Ok (Some (NotLoggedIn (name cur)))
         (called (called w s1 (CallGet (room cur))) s2
            (CallRemoveUser (Room_Name r) (name cur)))).
Proof.
  intros Hp E. split.
  - destruct (Leave_absent_frame _ _ _ Hp E)
      as (e & w0 & cs & HL & Hh & Hu & Hc & _).
    exists e, w0. repeat split; trivial.
  - intros Hr s1 s2 r E1 E2. rewrite (Leave_in_room _ _ _ _ _ _ Hp Hr E1).
    assert (E2' : Room_RemoveUser r (name cur)
                    (roomsState (called w s1 (CallGet (room cur))))
                  = (s2, None)) by exact E2.
    rewrite (bind_Ok _ _ _ _ _ (call_RemoveUser_eq _ _ _ _ _ E2')).
    exact (change_absent_error
             (called (called w s1 (CallGet (room cur))) s2
                (CallRemoveUser (Room_Name r) (name cur))) u "" cur Hp E).
Qed.

Lemma Join_absent (w : World) (u : loc) (r : Room) (cur : User) :
  heap w !! u = Some cur -> users w !! name cur = None ->
  room cur <> Room_Name r ->
  exists (w' : World) (cs : list Call),
    Join u r w = Ok (Some (NotLoggedIn (name cur))) w'
    /\ heap w' = heap w /\ users w' = users w
    /\ userCount w' = userCount w
    /\ calls w' = (calls w ++ cs)%list /\ existsb is_AddUser cs = false
    /\ (room cur = "" -> w' = w).
Proof.
  intros Hp E Hr.
  assert (Step : exists (w0 : World) (cs : list Call),
            (uroom <- field room u ;;
             if negb (String.eqb uroom "") then Leave u ;;; ret tt
             else ret tt) w = Ok tt w0
            /\ heap w0 = heap w /\ users w0 = users w
            /\ userCount w0 = userCount w
            /\ calls w0 = (calls w ++ cs)%list
            /\ existsb is_AddUser cs = false
            /\ (room cur = "" -> w0 = w)).
  { run_fields Hp. destruct (decide (room cur = "")) as [E0|E0].
    - exists w, []. rewrite (proj2 (String.eqb_eq _ _) E0). simpl.
      rewrite app_nil_r. repeat split; trivial.
    - destruct (Leave_absent_frame _ _ _ Hp E)
        as (e & w0 & cs & HL & Hh & Hu & Hc & Hcs & Hno).
      exists w0, cs. rewrite (proj2 (String.eqb_neq _ _) E0). simpl.
      rewrite (bind_Ok _ _ _ _ _ HL). repeat split; trivial.
      intros; congruence. }
  destruct Step as (w0 & cs & HS & Hh & Hu & Hc & Hcs & Hno & H0).
  assert (Hp0 : heap w0 !! u = Some cur) by (rewrite Hh; exact Hp).
  assert (E0 : users w0 !! name cur = None) by (rewrite Hu; exact E).
  exists w0, cs. split; [|repeat split; trivial].
  unfold Join. run_fields Hp. rewrite (proj2 (String.eqb_neq _ _) Hr).
  rewrite (bind_Ok _ _ _ _ _ HS). cbv beta.
  unfold bind at 1. unfold bind at 1. unfold Execute.
  rewrite (changeUserRoomName_absent _ _ (Room_Name r) _ Hp0 E0).
  reflexivity.
Qed.

(** X9.  [Join] through a [User] whose name has no registry entry, into a room
    other than the one it records, answers the not-logged-in error: no cell
    is written, the registry is as before and [AddUser] is not called (the
    collaborator may have been asked to drop the user from the old room). *)
Theorem Join_logged_out (w : World) (u : loc) (r : Room) (cur : User) :
  heap w !! u = Some cur -> users w !! name cur = None ->
  room cur <> Room_Name r ->
  exists (w' : World) (cs : list Call),
    Join u r w = Ok (Some (NotLoggedIn (name cur))) w'
    /\ heap w' = heap w /\ users w' = users w
    /\ userCount w' = userCount w
    /\ calls w' = (calls w ++ cs)%list /\ existsb is_AddUser cs = false
    /\ (room cur = "" -> w' = w).
Proof. apply Join_absent. Qed.

(** ** No panics *)

Lemma Leave_returns (w : World) (u : loc) (cur : User) :
  wf w -> heap w !! u = Some cur ->
  exists (e : option error) (w' : World), Leave u w = Ok e w'.
Proof.
  intros Hwf Hp. destruct (users w !! name cur) as [l|] eqn:E.
  - destruct (Hwf _ _ E) as (rec & Hl & _).
    destruct (Leave_frame _ _ _ _ _ Hp E Hl) as (e & w0 & _ & _ & _ & HL & _).
    eauto.
  - destruct (Leave_absent_frame _ _ _ Hp E) as (e & w0 & _ & HL & _). eauto.
Qed.

Lemma Get_returns (w : World) (n : string) :
  wf w -> exists (a : User * option error), Get n w = Ok a w.
Proof.
  intros Hwf.
  destruct (Nat.eq_dec (String.length n) 0%nat) as [Hn|Hn].
  { unfold Get. rewrite Hn. simpl. eauto. }
  destruct (users w !! n) as [l|] eqn:E.
  - destruct (wf_session _ _ _ Hwf E) as (rec & _ & _ & Hs).
    rewrite (Get_present _ _ _ Hn Hs). eauto.
  - rewrite (Get_absent _ _ Hn E). eauto.
Qed.

(** X10.  In a well-formed world no public function panics: there is no nil
    dereference, no failed type assertion and no index out of range, for
    any arguments, any receiver that points at a [User] and any behaviour of
    the collaborator. *)
Theorem public_functions_return (w : World) :
  wf w ->
  (forall c n d g s, exists a w', Login c n d g s w = Ok a w')
  /\ (forall n, exists a w', Get n w = Ok a w')
  /\ (forall n, exists a w', Kick n w = Ok a w')
  /\ (forall u cur, heap w !! u = Some cur ->
       (forall r, exists a w', Join u r w = Ok a w')
       /\ (exists a w', Leave u w = Ok a w')
       /\ (exists w', LogOut u w = Ok tt w')).
Proof.
  intros Hwf. split; [|split; [|split]].
  - intros c n d g s.
    destruct (Nat.eq_dec (String.length n) 0%nat) as [Hn|Hn].
    { unfold Login. rewrite Hn. simpl. eauto. }
    destruct (Z_lt_le_dec d (-1)) as [Hd|Hd].
    { rewrite (Login_rejects_low_id _ _ _ _ _ _ Hn Hd). eauto. }
    destruct s as [c0|].
    2:{ unfold Login. destruct (String.length n); [congruence|].
        simpl. rewrite (proj2 (Z.ltb_ge _ _) Hd). eauto. }
    destruct (users w !! n) as [l|] eqn:E.
    + unfold Login, Execute. destruct (String.length n); [congruence|].
      simpl. rewrite (proj2 (Z.ltb_ge _ _) Hd).
      rewrite (bind_Ok _ _ _ _ _
                 (loginUser_taken _ _ _ _ _ (mk_is_Some _ _ E))).
      simpl. destruct c; eauto.
    + rewrite (Login_accepted c w n d g (Some c0) Hn Hd ltac:(discriminate) E).
      eauto.
  - intros n. destruct (Get_returns _ n Hwf) as (a & E). eauto.
  - intros n. unfold Kick.
    destruct (String.length n) eqn:Hn; simpl; [eauto|].
    destruct (Get_returns _ n Hwf) as ([user [e|]] & E);
      rewrite (bind_Ok _ _ _ _ _ E); [eauto|].
    unfold bind at 1. unfold bind at 1. unfold new.
    set (wa := mkWorld _ _ _ _ _).
    assert (Hp : heap wa !! fresh (dom (heap w)) = Some user)
      by apply lookup_insert_eq.
    destruct (LogOut_registry _ _ _ Hp) as (w' & HL & _).
    rewrite HL. eauto.
  - intros u cur Hp. split; [|split].
    + intros r. destruct (decide (room cur = Room_Name r)) as [Hr|Hr].
      { rewrite (Join_same _ _ _ _ Hp Hr). eauto. }
      destruct (users w !! name cur) as [l|] eqn:E.
      * destruct (Hwf _ _ E) as (rec & Hl & _).
        assert (Step : exists (w0 : World) (rm rm' : string),
                  (uroom <- field room u ;;
                   if negb (String.eqb uroom "") then Leave u ;;; ret tt
                   else ret tt) w = Ok tt w0
                  /\ users w0 = users w
                  /\ heap w0 !! u = Some (set_room rm cur)
                  /\ heap w0 !! l = Some (set_room rm' rec)).
        { run_fields Hp. destruct (decide (room cur = "")) as [E0|E0].
          - exists w, (room cur), (room rec).
            rewrite (proj2 (String.eqb_eq _ _) E0). simpl.
            rewrite !set_room_same. repeat split; trivial.
          - destruct (Leave_frame _ _ _ _ _ Hp E Hl)
              as (e & w0 & rm & rm' & cs & HL & Hu & _ & Hc & Hc' & _).
            exists w0, rm, rm'.
            rewrite (proj2 (String.eqb_neq _ _) E0). simpl.
            rewrite (bind_Ok _ _ _ _ _ HL). repeat split; trivial. }
        destruct Step as (w0 & rm & rm' & HS & Hu & Hc & Hc').
        assert (Hl0 : users w0 !! name (set_room rm cur) = Some l)
          by (rewrite Hu; exact E).
        pose proof (Join_change_then_add _ u l r _ _ Hc Hl0 Hc') as T.
        unfold Join. run_fields Hp.
        rewrite (proj2 (String.eqb_neq _ _) Hr).
        rewrite (bind_Ok _ _ _ _ _ HS). cbv beta. rewrite T.
        unfold call_AddUser.
        destruct (Room_AddUser _ _ _ _) as [s' e]. eauto.
      * destruct (Join_absent _ _ _ _ Hp E Hr) as (w' & cs & HJ & _).
        eauto.
    + exact (Leave_returns _ _ _ Hwf Hp).
    + destruct (LogOut_registry _ _ _ Hp) as (w' & HL & _). eauto.
Qed.

(** ** How the operations compose *)

Lemma LogOut_no_room (w : World) (u : loc) (cur : User) :
  heap w !! u = Some cur -> room cur = "" ->
  LogOut u w
  = Ok tt (mkWorld (userCount w) (delete (name cur) (users w)) (heap w)
             (roomsState w) (calls w)).
Proof.
  intros Hp Hr. unfold LogOut. run_fields Hp.
  rewrite (proj2 (String.eqb_eq _ _) Hr). simpl.
  unfold bind at 1. unfold ret at 1. now run_fields Hp.
Qed.

Lemma LogOut_unfold (w : World) (u : loc) (cur : User) :
  heap w !! u = Some cur ->
  exists w1 : World,
    LogOut u w
    = Ok tt (mkWorld (userCount w) (delete (name cur) (users w)) (heap w)
               (roomsState w1) (calls w1))
    /\ (room cur = "" -> w1 = w)
    /\ (room cur <> "" ->
        forall (s1 : RoomsState) (r : Room) (roomErr : option error),
          rooms_Get (room cur) (roomsState w) = (s1, (r, roomErr)) ->
          (forall e : error, roomErr = Some e ->
           w1 = called w s1 (CallGet (room cur)))
          /\
          (roomErr = None ->
           forall (s2 : RoomsState) (removeErr : option error),
             Room_RemoveUser r (name cur) s1 = (s2, removeErr) ->
             w1 = called (called w s1 (CallGet (room cur))) s2
                    (CallRemoveUser (Room_Name r) (name cur)))).
Proof.
  intros Hp.
  destruct (LogOut_best_effort _ _ _ Hp) as (w1 & HS & Hu & Hh & Hc & H0 & H1).
  assert (Hp1 : heap w1 !! u = Some cur) by (rewrite Hh; exact Hp).
  exists w1. split; [|split; assumption].
  unfold LogOut. run_fields Hp. rewrite (bind_Ok _ _ _ _ _ HS).
  cbv beta. run_fields Hp1. unfold Execute, bind.
  rewrite logUserOut_eq. unfold ret. now rewrite Hu, Hh, Hc.
Qed.

(** X11.  A session that [Login] has just created is what [Get] answers for the
    name, and [Get] leaves the world as [Login] left it. *)
Theorem Login_then_Get (c : bool) (w : World) (n : string) (d : Z)
  (g : bool) (s : Conn) :
  String.length n <> 0%nat -> -1 <= d -> s <> None ->
  users w !! n = None ->
  exists (rec : User) (w' : World),
    Login c n d g s w = Ok (rec, None) w'
    /\ Get n w' = Ok (rec, None) w'.
Proof.
  intros Hn Hd Hs E. eexists _, _.
  split; [apply (Login_accepted c _ _ _ g _ Hn Hd Hs E)|].
  apply Get_present; trivial.
  unfold session; simpl. rewrite lookup_insert_eq; simpl.
  apply lookup_insert_eq.
Qed.

(** X12.  [Login] of a free name followed by [Kick] of that name gives back the
    registry map, and neither involves the collaborator; the name is then
    not logged in, and a second [Login] of it succeeds with the fields of the
    second call, the counter having been incremented twice. *)
Theorem Login_Kick_Login (c : bool) (w : World) (n : string) (d : Z)
  (g : bool) (s : Conn) :
  String.length n <> 0%nat -> -1 <= d -> s <> None ->
  users w !! n = None ->
  exists (rec : User) (w1 w2 : World),
    Login c n d g s w = Ok (rec, None) w1
    /\ Kick n w1 = Ok None w2
    /\ users w2 = users w
    /\ roomsState w2 = roomsState w /\ calls w2 = calls w
    /\ Get n w2 = Ok (User_zero, Some (NotLoggedIn n)) w2
    /\ forall (c2 : bool) (d2 : Z) (g2 : bool) (s2 : Conn),
         -1 <= d2 -> s2 <> None ->
         exists w3 : World,
           Login c2 n d2 g2 s2 w2
           = Ok (mkUser n (if g2 then -1 else d2) g2 "" StatusAvailable s2,
                 None) w3
           /\ userCount w3 = int64_wrap (int64_wrap (userCount w + 1) + 1).
Proof.
  intros Hn Hd Hs E.
  pose proof (Login_accepted c _ _ _ g _ Hn Hd Hs E) as HL.
  set (rec := mkUser n (if g then -1 else d) g "" 0 s) in *.
  set (w1 := mkWorld _ _ _ _ _) in HL.
  assert (Hs1 : session w1 n = Some rec).
  { unfold session; simpl. rewrite lookup_insert_eq; simpl.
    apply lookup_insert_eq. }
  assert (HK : Kick n w1
               = Ok None
                   (mkWorld (userCount w1) (delete n (users w1))
                      (<[fresh (dom (heap w1)) := rec]> (heap w1))
                      (roomsState w1) (calls w1))).
  { unfold Kick. destruct (String.length n) eqn:Hlen; [congruence|].
    simpl. rewrite <- Hlen in Hn.
    rewrite (bind_Ok _ _ _ _ _ (Get_present _ _ _ Hn Hs1)).
    unfold bind at 1. unfold bind at 1. unfold new.
    set (wa := mkWorld _ _ _ _ _).
    assert (Hp : heap wa !! fresh (dom (heap w1)) = Some rec)
      by apply lookup_insert_eq.
    now rewrite (LogOut_no_room _ _ _ Hp eq_refl). }
  assert (Hu2 : delete n (<[n := fresh (dom (heap w))]> (users w)) = users w).
  { rewrite delete_insert_eq. now apply delete_id. }
  eexists rec, w1, _. split; [exact HL|]. split; [exact HK|]. simpl.
  split; [exact Hu2|]. split; [reflexivity|]. split; [reflexivity|].
  split.
  - apply Get_absent; trivial. simpl. rewrite Hu2. exact E.
  - intros c2 d2 g2 s2 Hd2 Hs2. eexists. split.
    + apply (Login_accepted c2 _ _ _ g2 _ Hn Hd2 Hs2). simpl.
      rewrite Hu2. exact E.
    + reflexivity.
Qed.

(** X13.  [Kick] logs the user out of the room that the registry records for the
    name: with no room recorded the collaborator is not involved; otherwise
    the room is looked up and, when it is found, [RemoveUser] is called once,
    and whatever the two answer [Kick] answers [nil]. *)
Theorem Kick_uses_recorded_room (w : World) (n : string) (rec : User) :
  wf w -> String.length n <> 0%nat -> session w n = Some rec ->
  exists w' : World,
    Kick n w = Ok None w'
    /\ (room rec = "" ->
        calls w' = calls w /\ roomsState w' = roomsState w)
    /\ (room rec <> "" ->
        forall (s1 : RoomsState) (r : Room) (roomErr : option error),
          rooms_Get (room rec) (roomsState w) = (s1, (r, roomErr)) ->
          (forall e : error, roomErr = Some e ->
           calls w' = (calls w ++ [CallGet (room rec)])%list
           /\ roomsState w' = s1)
          /\
          (roomErr = None ->
           forall (s2 : RoomsState) (removeErr : option error),
             Room_RemoveUser r n s1 = (s2, removeErr) ->
             calls w'
             = (calls w ++ [CallGet (room rec);
                            CallRemoveUser (Room_Name r) n])%list
             /\ roomsState w' = s2)).
Proof.
  intros Hwf Hn Hs.
  assert (Hname : name rec = n).
  { unfold session in Hs. destruct (users w !! n) as [l|] eqn:E; [|discriminate].
    simpl in Hs. destruct (Hwf _ _ E) as (v & Hv & Hnv). congruence. }
  unfold Kick. destruct (String.length n) eqn:Hlen; [congruence|].
  simpl. rewrite <- Hlen in Hn.
  rewrite (bind_Ok _ _ _ _ _ (Get_present _ _ _ Hn Hs)).
  unfold bind at 1. unfold bind at 1. unfold new.
  set (wa := mkWorld _ _ _ _ _).
  assert (Hp : heap wa !! fresh (dom (heap w)) = Some rec)
    by apply lookup_insert_eq.
  destruct (LogOut_unfold _ _ _ Hp) as (w1 & HL & H0 & H1).
  rewrite HL. eexists. split; [reflexivity|]. simpl. split.
  - intros Hr. now rewrite (H0 Hr).
  - intros Hr s1 r roomErr E1. destruct (H1 Hr s1 r roomErr E1) as [Ha Hb].
    split.
    + intros e He. now rewrite (Ha e He).
    + intros He s2 removeErr E2. rewrite Hname in Hb.
      rewrite (Hb He s2 removeErr E2). simpl. now rewrite <- app_assoc.
Qed.

(** ** Join and Leave, continued *)

Lemma Join_live_result (w : World) (u l : loc) (r : Room) (cur rec : User) :
  heap w !! u = Some cur -> users w !! name cur = Some l ->
  heap w !! l = Some rec -> room cur <> Room_Name r ->
  exists (e : option error) (w' : World),
    Join u r w = Ok e w'
    /\ users w' = users w
    /\ heap w' !! u = Some (set_room (Room_Name r) cur)
    /\ heap w' !! l = Some (set_room (Room_Name r) rec).
Proof.
  intros Hp E Hl Hr.
  assert (Step : exists (w0 : World) (rm rm' : string),
            (uroom <- field room u ;;
             if negb (String.eqb uroom "") then Leave u ;;; ret tt
             else ret tt) w = Ok tt w0
            /\ users w0 = users w
            /\ heap w0 !! u = Some (set_room rm cur)
            /\ heap w0 !! l = Some (set_room rm' rec)).
  { run_fields Hp. destruct (decide (room cur = "")) as [E0|E0].
    - exists w, (room cur), (room rec).
      rewrite (proj2 (String.eqb_eq _ _) E0). simpl.
      rewrite !set_room_same. repeat split; trivial.
    - destruct (Leave_frame _ _ _ _ _ Hp E Hl)
        as (e & w0 & rm & rm' & cs & HL & Hu & _ & Hc & Hc' & _).
      exists w0, rm, rm'.
      rewrite (proj2 (String.eqb_neq _ _) E0). simpl.
      rewrite (bind_Ok _ _ _ _ _ HL). repeat split; trivial. }
  destruct Step as (w0 & rm & rm' & HS & Hu & Hc & Hc').
  assert (Hl0 : users w0 !! name (set_room rm cur) = Some l)
    by (rewrite Hu; exact E).
  pose proof (Join_change_then_add _ u l r _ _ Hc Hl0 Hc') as T.
  destruct (changeUserRoomName_cells (heap w0) u l (Room_Name r) _ _ Hc Hc')
    as (Hcell & Hcaller & _).
  rewrite !set_room_idemp in Hcell, Hcaller, T. simpl in T.
  unfold Join. run_fields Hp.
  rewrite (proj2 (String.eqb_neq _ _) Hr).
  rewrite (bind_Ok _ _ _ _ _ HS). cbv beta. rewrite T.
  unfold call_AddUser. simpl.
  destruct (Room_AddUser _ _ _ _) as [s' e].
  eexists _, _. split; [reflexivity|]. simpl. repeat split; trivial.
Qed.

(** X14.  Once [Join] has returned for a logged-in user, whether [AddUser]
    accepted the user or answered an error, the user's [RoomName] is the new
    room and a second [Join] into that room is refused as already-in-room,
    without another call of the collaborator: a [Join] that failed in
    [AddUser] cannot simply be tried again. *)
Theorem Join_retry_refused (w w' : World) (u l : loc) (r : Room)
  (cur rec : User) (e : option error) :
  heap w !! u = Some cur -> users w !! name cur = Some l ->
  heap w !! l = Some rec -> room cur <> Room_Name r ->
  Join u r w = Ok e w' ->
  RoomName u w' = Ok (Room_Name r) w'
  /\ Join u r w'
     = Ok (Some (AlreadyInRoom (name cur) (Room_Name r))) w'.
Proof.
  intros Hp E Hl Hr HJ.
  destruct (Join_live_result _ _ _ _ _ _ Hp E Hl Hr)
    as (e0 & w0 & HJ0 & _ & Hu & _).
  rewrite HJ0 in HJ. injection HJ as <- <-. split.
  - unfold RoomName. now rewrite (field_Some _ _ _ _ Hu).
  - now rewrite (Join_same _ _ _ _ Hu eq_refl).
Qed.

(** X15.  After [Join] has returned for a logged-in user, a [Leave] for which the
    room lookup and [RemoveUser] go through answers [nil] and puts the room
    of the caller's [User] and of the registry's record back to [""]. *)
Theorem Join_then_Leave (w w' : World) (u l : loc) (r r' : Room)
  (cur rec : User) (e : option error) (s1 s2 : RoomsState) :
  heap w !! u = Some cur -> users w !! name cur = Some l ->
  heap w !! l = Some rec -> room cur <> Room_Name r ->
  Room_Name r <> "" ->
  Join u r w = Ok e w' ->
  rooms_Get (Room_Name r) (roomsState w') = (s1, (r', None)) ->
  Room_RemoveUser r' (name cur) s1 = (s2, None) ->
  exists w'' : World,
    Leave u w' = Ok None w''
    /\ heap w'' !! u = Some (set_room "" cur)
    /\ session w'' (name cur) = Some (set_room "" rec)
    /\ users w'' = users w
    /\ RoomName u w'' = Ok "" w''.
Proof.
  intros Hp E Hl Hr Hne HJ E1 E2.
  destruct (Join_live_result _ _ _ _ _ _ Hp E Hl Hr)
    as (e0 & w0 & HJ0 & Hus & Hu & Hc).
  rewrite HJ0 in HJ. injection HJ as <- <-.
  assert (E' : users w0 !! name (set_room (Room_Name r) cur) = Some l)
    by (rewrite Hus; exact E).
  rewrite (Leave_done w0 u l _ _ s1 s2 r' Hu Hne E1 E2 E' Hc).
  eexists. split; [reflexivity|]. simpl.
  destruct (changeUserRoomName_cells (heap w0) u l "" _ _ Hu Hc)
    as (Hcell & Hcaller & _).
  rewrite !set_room_idemp in Hcell, Hcaller.
  split; [exact Hcaller|]. split.
  - unfold session; simpl. rewrite Hus, E. simpl. exact Hcell.
  - split; [exact Hus|].
    unfold RoomName, field, bind, load; simpl.
    rewrite lookup_insert_eq. reflexivity.
Qed.

(** ** One user's room changes leave the other users alone *)

Lemma R_others_change (n : string) (u : loc) (rn : string) :
  keeps (R_others n u) (changeUserRoomName [I_UserPtr u; I_string rn]).
Proof.
  intros w out w' Hex Hwf (v & Hv & Hn).
  split; [exact (wf_changeUserRoomName _ _ _ _ Hwf Hex)|].
  destruct (users w !! name v) as [l|] eqn:E.
  - destruct (Hwf _ _ E) as (rec & Hl & Hrn).
    rewrite (changeUserRoomName_live _ _ _ rn _ _ Hv E Hl) in Hex.
    injection Hex as _ <-. simpl.
    destruct (changeUserRoomName_cells _ _ _ rn _ _ Hv Hl)
      as (_ & Hcaller & Hframe).
    split; [exists (set_room rn v); split; [exact Hcaller | exact Hn]|].
    intros k Hk. unfold session; simpl.
    destruct (users w !! k) as [q|] eqn:Ek; [|reflexivity]. simpl.
    destruct (Hwf _ _ Ek) as (vk & Hvk & Hnk).
    apply Hframe; intros ->; congruence.
  - rewrite (changeUserRoomName_absent _ _ rn _ Hv E) in Hex.
    injection Hex as _ <-. split; [eauto|]. reflexivity.
Qed.

Section FrameAt.
Variable n : string.
Variable u : loc.

Lemma R_others_refl (w : World) : R_others n u w w.
Proof. intros Hwf Hv. repeat split; trivial. Qed.

Lemma R_others_trans (w1 w2 w3 : World) :
  R_others n u w1 w2 -> R_others n u w2 w3 -> R_others n u w1 w3.
Proof.
  intros H12 H23 Hwf Hv.
  destruct (H12 Hwf Hv) as (Hwf2 & Hv2 & Hs2).
  destruct (H23 Hwf2 Hv2) as (Hwf3 & Hv3 & Hs3).
  repeat split; trivial. intros k Hk. now rewrite Hs3, Hs2.
Qed.

Lemma R_others_called (w : World) (s : RoomsState) (c : Call) :
  R_others n u w (called w s c).
Proof. intros Hwf Hv. repeat split; trivial. Qed.

Ltac others_steps :=
  repeat first
    [ apply keeps_ret; apply R_others_refl
    | apply keeps_panic
    | apply R_others_change
    | apply keeps_read; [ apply R_others_refl | apply load_reads ]
    | apply keeps_read; [ apply R_others_refl | apply index_reads ]
    | match goal with
      | |- keeps _ (call_rooms_Get _) =>
          intros w ? ?; unfold call_rooms_Get;
          destruct (rooms_Get _ (roomsState w)); intros [= _ <-];
          apply R_others_called
      | |- keeps _ (call_RemoveUser _ _) =>
          intros w ? ?; unfold call_RemoveUser;
          destruct (Room_RemoveUser _ _ (roomsState w)); intros [= _ <-];
          apply R_others_called
      | |- keeps _ (call_AddUser _ _ _) =>
          intros w ? ?; unfold call_AddUser;
          destruct (Room_AddUser _ _ _ (roomsState w)); intros [= _ <-];
          apply R_others_called
      | Hk : context [keeps] |- _ => apply Hk
      end
    | progress unfold as_error
    | apply keeps_bind; [ apply R_others_trans | | intros ? ]
    | match goal with
      | |- keeps _ (if ?b then _ else _) => destruct b
      | |- keeps _ (match ?x with _ => _ end) => destruct x
      end ].

Lemma R_others_Leave : keeps (R_others n u) (Leave u).
Proof. unfold Leave, Execute, response_error, field. others_steps. Qed.

Lemma R_others_Join (r : Room) : keeps (R_others n u) (Join u r).
Proof.
  pose proof R_others_Leave.
  unfold Join, Execute, response_error, field. others_steps.
Qed.

End FrameAt.

(** X16.  [Join] and [Leave] called through a [User] change the session of no
    other name, whatever the collaborator answers and whichever cell the
    pointer refers to. *)
Theorem room_changes_touch_own_session_only (w w' : World) (u : loc)
  (cur : User) (k : string) :
  wf w -> heap w !! u = Some cur -> k <> name cur ->
  (forall r e, Join u r w = Ok e w' -> session w' k = session w k)
  /\ (forall e, Leave u w = Ok e w' -> session w' k = session w k).
Proof.
  intros Hwf Hp Hk. split.
  - intros r e E.
    destruct (R_others_Join (name cur) u r _ _ _ E Hwf) as (_ & _ & Hs); eauto.
  - intros e E.
    destruct (R_others_Leave (name cur) u _ _ _ E Hwf) as (_ & _ & Hs); eauto.
Qed.

End Properties.

(** ** The start-up settings *)

Lemma run_calls_started (cs : list SettingsCall) (s : Settings) :
  serverStarted s = true -> run_calls cs s = s.
Proof.
  unfold run_calls. revert s. induction cs as [|c cs IH]; intros s Hs; trivial.
  simpl. assert (E : run_call s c = s).
  { destruct c; simpl; unfold SetServerStarted, SettingsSet; now rewrite Hs. }
  rewrite E. now apply IH.
Qed.

(** X17.  Once the server has started, no sequence of [SetServerStarted] and
    [SettingsSet] calls changes [serverStarted] or [kickOnLogin]: the flag
    cannot be taken back and the settings are frozen. *)
Theorem settings_frozen_once_started (cs1 cs2 : list SettingsCall)
  (s : Settings) :
  serverStarted (run_calls cs1 s) = true ->
  run_calls (cs1 ++ cs2) s = run_calls cs1 s.
Proof.
  intros Hs. unfold run_calls. rewrite fold_left_app.
  now apply run_calls_started.
Qed.

(** X18.  Starting from a server that has not started, after any sequence of calls
    the server has started exactly when some call was
    [SetServerStarted(true)], and [kickOnLogin] is what the last
    [SettingsSet] before the first such call asked for. *)
Theorem settings_outcome (cs : list SettingsCall) (s : Settings) :
  serverStarted s = false ->
  serverStarted (run_calls cs s) = existsb asks_start cs
  /\ kickOnLogin (run_calls cs s) = kick_requested cs (kickOnLogin s).
Proof.
  revert s. induction cs as [|c cs IH]; intros s Hs; [now split|].
  destruct s as [st k]. simpl in Hs. subst st.
  destruct c as [[]|k']; unfold run_calls; simpl.
  - change (fold_left run_call cs (SetServerStarted true (mkSettings false k)))
      with (run_calls cs (mkSettings true k)).
    now rewrite run_calls_started.
  - apply (IH (mkSettings false k)). reflexivity.
  - apply (IH (mkSettings false k')). reflexivity.
Qed.

(** * The operations at work on the demo collaborator *)

#[local] Existing Instance demo_rooms.

Lemma wf_demo_world : wf demo_world.
Proof.
  intros k l Hk.
  change (({[ "alice" := 1%positive ]} : gmap string loc) !! k = Some l) in Hk.
  apply lookup_singleton_Some in Hk as [<- <-].
  exists demo_alice. split; reflexivity.
Qed.

(** alice is taken in [demo_world] and free in [demo_empty]. *)
Lemma loginUser_spec_witness :
  Execute loginUser
    [I_string "alice"; I_int64 9; I_bool false; I_Conn (Some 3%positive)]
    demo_world
  = Ok [I_User User_zero; I_error (AlreadyLoggedIn "alice")] demo_world
  /\ exists (l : loc) (w' : World),
       Execute loginUser
         [I_string "alice"; I_int64 9; I_bool false; I_Conn (Some 3%positive)]
         demo_empty
       = Ok [I_User (mkUser "alice" 9 false "" 0 (Some 3%positive)); I_nil] w'
       /\ userCount w' = 1
       /\ users w' = <[ "alice" := l ]> ∅.
Proof.
  split.
  - apply (proj1 (loginUser_spec demo_world "alice" 9 false (Some 3%positive))).
    exists 1%positive. reflexivity.
  - destruct (proj2 (loginUser_spec demo_empty "alice" 9 false
                       (Some 3%positive)) eq_refl)
      as (l & w' & rec & Hex & -> & _ & Hc & _ & Hu & _).
    exists l, w'. split; [exact Hex|]. split; [|exact Hu].
    apply Hc. simpl. lia.
Defined.

Lemma getUser_spec_witness :
  Execute getUser [I_string "alice"] demo_world
  = Ok [I_User demo_alice; I_nil] demo_world
  /\ Execute getUser [I_string "bob"] demo_world
     = Ok [I_User User_zero; I_error (NotLoggedIn "bob")] demo_world
  /\ Get "alice" demo_world = Ok (demo_alice, None) demo_world.
Proof.
  destruct (getUser_spec demo_world "alice") as (_ & Hrec & _ & Hget).
  destruct (getUser_spec demo_world "bob") as (Habs & _).
  split; [apply Hrec; reflexivity|].
  split; [apply Habs; reflexivity|].
  apply (Hget ltac:(discriminate)). reflexivity.
Defined.

Lemma Kick_spec_witness :
  String.length "alice" <> 0%nat /\ wf demo_world
  /\ exists w' : World,
       Kick "alice" demo_world = Ok None w' /\ session w' "alice" = None.
Proof.
  assert (Hn : String.length "alice" <> 0%nat) by discriminate.
  split; [exact Hn|]. split; [exact wf_demo_world|].
  destruct (Kick_spec demo_world "alice" Hn wf_demo_world)
    as (_ & _ & Hin & _).
  destruct (Hin (mk_is_Some _ 1%positive eq_refl)) as (w' & HK & _ & Hs & _).
  exists w'. split; [exact HK | exact Hs].
Defined.

(** The claim C3 as stated fails at the empty name: it is not logged in,
    and [Kick] answers an error that is not the one [Get] answers. *)
Lemma Kick_empty_name_counterexample :
  users demo_empty !! "" = None
  /\ Get "" demo_empty
     = Ok (User_zero, Some (errors_New "users.Get() requires a user name"))
         demo_empty
  /\ Kick "" demo_empty
     = Ok (Some (errors_New "users.Kick() requires a user name")) demo_empty
  /\ Kick "" demo_empty <> Get_then_LogOut "" demo_empty
  /\ ~ (exists (u : User) (e : error) (w1 w2 : World),
          Get "" demo_empty = Ok (u, Some e) w1
          /\ Kick "" demo_empty = Ok (Some e) w2).
Proof.
  split; [reflexivity|]. split; [reflexivity|]. split; [reflexivity|].
  split; [discriminate|].
  intros (u & e & w1 & w2 & HG & HK).
  change (Get "" demo_empty)
    with (Ok (H:=demo_rooms)
            (User_zero,
             Some (errors_New "users.Get() requires a user name")) demo_empty)
    in HG.
  change (Kick "" demo_empty)
    with (Ok (H:=demo_rooms)
            (Some (errors_New "users.Kick() requires a user name")) demo_empty)
    in HK.
  injection HG as _ <- _. discriminate HK.
Qed.

(** alice, sitting in the lobby, joins the arena where [AddUser] refuses
    her: the error comes back and her room reads "arena" all the same. *)
Lemma Join_other_room_witness :
  heap demo_world_arena !! 2%positive = Some demo_alice
  /\ room demo_alice <> Room_Name demo_arena
  /\ exists w' : World,
       Join 2%positive demo_arena demo_world_arena
       = Ok (Some (errors_New "already a member")) w'
       /\ session w' "alice" = Some (mkUser "alice" 7 false "arena" 0 (Some 1%positive))
       /\ heap w' !! 2%positive
          = Some (mkUser "alice" 7 false "arena" 0 (Some 1%positive))
       /\ RoomName 2%positive w' = Ok "arena" w'.
Proof.
  assert (Hp : heap demo_world_arena !! 2%positive = Some demo_alice)
    by reflexivity.
  assert (Hr : room demo_alice <> Room_Name demo_arena) by discriminate.
  split; [exact Hp|]. split; [exact Hr|].
  destruct (Join_other_room demo_world_arena 2%positive 1%positive
              demo_arena demo_alice demo_alice Hp eq_refl eq_refl Hr)
    as (w0 & w1 & cs & _ & HL & HC & _ & _ & _ & _ & _ & HA).
  destruct (HL ltac:(discriminate)) as (e & HLe).
  vm_compute in HLe. injection HLe as _ <-.
  vm_compute in HC. injection HC as <-.
  destruct (HA [("arena", "alice")] (Some (errors_New "already a member"))
              eq_refl) as (HJ & _ & _ & _ & _ & Hs & Hu & Hrn).
  eexists. split; [exact HJ|]. split; [exact Hs|]. split; [exact Hu|].
  exact Hrn.
Defined.

(** alice leaves the lobby through the copy a caller holds (cell 2): the
    registry's record and the caller's copy both read [""] afterwards. *)
Lemma Leave_spec_witness :
  heap demo_world !! 2%positive = Some demo_alice
  /\ exists w' : World,
       Leave 2%positive demo_world = Ok None w'
       /\ session w' "alice" = Some (mkUser "alice" 7 false "" 0 (Some 1%positive))
       /\ heap w' !! 2%positive = Some (mkUser "alice" 7 false "" 0 (Some 1%positive))
       /\ RoomName 2%positive w' = Ok "" w'
       /\ calls w' = [CallGet "lobby"; CallRemoveUser "lobby" "alice"].
Proof.
  assert (Hp : heap demo_world !! 2%positive = Some demo_alice) by reflexivity.
  split; [exact Hp|].
  destruct (Leave_spec demo_world 2%positive demo_alice Hp) as [_ Hin].
  destruct (Hin ltac:(discriminate) [("lobby", "alice")] demo_lobby None
              eq_refl) as [_ Hok].
  destruct (Hok eq_refl [] None eq_refl) as [_ Hdone].
  destruct (Hdone eq_refl) as [_ Hlive].
  destruct (Hlive 1%positive demo_alice eq_refl eq_refl)
    as (w' & HL & _ & _ & _ & _ & _ & Hc & Hs & Hu & Hrn).
  exists w'. split; [exact HL|]. split; [exact Hs|]. split; [exact Hu|].
  split; [exact Hrn | exact Hc].
Defined.

Lemma Join_same_room_witness :
  heap demo_world !! 2%positive = Some demo_alice
  /\ room demo_alice = Room_Name demo_lobby
  /\ Join 2%positive demo_lobby demo_world
     = Ok (Some (AlreadyInRoom "alice" "lobby")) demo_world.
Proof.
  assert (Hp : heap demo_world !! 2%positive = Some demo_alice) by reflexivity.
  assert (Hr : room demo_alice = Room_Name demo_lobby) by reflexivity.
  split; [exact Hp|]. split; [exact Hr|].
  destruct (Join_same_room demo_world 2%positive demo_lobby demo_alice Hp Hr)
    as (w' & HJ & -> & _).
  exact HJ.
Defined.

Lemma LogOut_spec_witness :
  heap demo_world !! 2%positive = Some demo_alice
  /\ exists w' : World,
       LogOut 2%positive demo_world = Ok tt w'
       /\ users w' = delete "alice" (users demo_world)
       /\ session w' "alice" = None.
Proof.
  assert (Hp : heap demo_world !! 2%positive = Some demo_alice) by reflexivity.
  split; [exact Hp|].
  destruct (LogOut_spec demo_world 2%positive demo_alice Hp)
    as (w1 & w' & HL & _ & _ & _ & _ & Hu & Hs & _).
  exists w'. repeat split; trivial.
Defined.

Lemma logUserOut_spec_witness :
  exists w' : World,
    Execute logUserOut [I_string "alice"] demo_world = Ok [] w'
    /\ users w' !! "alice" = None
    /\ Execute logUserOut [I_string "alice"] w' = Ok [] w'.
Proof.
  destruct (logUserOut_spec demo_world "alice")
    as (w' & HL & _ & Hn & _ & _ & _ & _ & _ & _ & Hi).
  exists w'. repeat split; trivial.
Defined.

(** The scenario of the spec: a guest login that supplies the ID 7. *)
Lemma Login_guest_databaseID_witness :
  String.length "alice" <> 0%nat /\ -1 <= 7
  /\ Some 1%positive <> (None : Conn)
  /\ users demo_empty !! "alice" = None
  /\ exists (rec : User) (w' : World),
       Login false "alice" 7 true (Some 1%positive) demo_empty
       = Ok (rec, None) w'
       /\ databaseID rec = -1 /\ session w' "alice" = Some rec.
Proof.
  assert (Hn : String.length "alice" <> 0%nat) by discriminate.
  assert (Hd : -1 <= 7) by lia.
  assert (Hs : Some 1%positive <> (None : Conn)) by discriminate.
  assert (E : users demo_empty !! "alice" = None) by reflexivity.
  repeat (split; [assumption|]).
  destruct (proj1 (Login_guest_databaseID false demo_empty "alice" 7
                     (Some 1%positive)) Hn Hd Hs E)
    as (rec & w' & HL & Hid & _ & Hses & _).
  exists rec, w'. repeat split; trivial.
Defined.

(** The caller's copy (cell 2) and the registry's record (cell 1) are
    distinct cells; both get the new room name. *)
Lemma changeUserRoomName_spec_witness :
  heap demo_world !! 2%positive = Some demo_alice
  /\ exists w' : World,
       Execute changeUserRoomName [I_UserPtr 2%positive; I_string "arena"]
         demo_world = Ok [I_nil] w'
       /\ heap w' !! 1%positive
          = Some (mkUser "alice" 7 false "arena" 0 (Some 1%positive))
       /\ heap w' !! 2%positive
          = Some (mkUser "alice" 7 false "arena" 0 (Some 1%positive))
       /\ RoomName 2%positive w' = Ok "arena" w'.
Proof.
  assert (Hp : heap demo_world !! 2%positive = Some demo_alice) by reflexivity.
  split; [exact Hp|].
  destruct (changeUserRoomName_spec demo_world 2%positive "arena" demo_alice
              Hp) as [Hlive _].
  destruct (Hlive 1%positive demo_alice eq_refl eq_refl)
    as (w' & HC & _ & _ & _ & _ & _ & _ & _ & _ & Hl & Hu & Hrn).
  exists w'. split; [exact HC|]. split; [exact Hl|]. split; [exact Hu|].
  exact Hrn.
Defined.

(** The login scenario of the spec, run from the empty registry: a guest
    login of alice, a second login of alice that is refused, a logout, and a
    login of alice with the account 7. *)
Example scenario_login_logout_login :
  exists (w1 w2 w3 : World) (out : list iface),
    Login false "alice" (-1) true (Some 1%positive) demo_empty
    = Ok (mkUser "alice" (-1) true "" StatusAvailable (Some 1%positive), None)
        w1
    /\ Login false "alice" 7 false (Some 2%positive) w1
       = Ok (User_zero, Some (AlreadyLoggedIn "alice")) w1
    /\ Execute logUserOut [I_string "alice"] w1 = Ok out w2
    /\ Login false "alice" 7 false (Some 2%positive) w2
       = Ok (mkUser "alice" 7 false "" StatusAvailable (Some 2%positive), None)
           w3
    /\ userCount w3 = 2.
Proof.
  eexists _, _, _, _.
  split; [vm_compute; reflexivity|].
  split; [vm_compute; reflexivity|].
  split; [vm_compute; reflexivity|].
  split; vm_compute; reflexivity.
Qed.

(** * The further properties at work *)

Lemma wf_demo_world_two : wf demo_world_two.
Proof.
  intros k l Hk.
  change ((<[ "bob" := 3%positive ]>
             ({[ "alice" := 1%positive ]} : gmap string loc)) !! k = Some l)
    in Hk.
  apply lookup_insert_Some in Hk as [[<- <-]|[_ Hk]].
  - exists demo_bob. split; reflexivity.
  - apply lookup_singleton_Some in Hk as [<- <-].
    exists demo_alice. split; reflexivity.
Qed.

Lemma settings_frozen_once_started_witness :
  serverStarted
    (run_calls [DoSettingsSet true; DoSetServerStarted true] Settings_init)
  = true
  /\ run_calls ([DoSettingsSet true; DoSetServerStarted true]
                 ++ [DoSettingsSet false; DoSetServerStarted false])
       Settings_init
     = mkSettings true true.
Proof.
  split; [reflexivity|].
  rewrite (settings_frozen_once_started
             [DoSettingsSet true; DoSetServerStarted true]
             [DoSettingsSet false; DoSetServerStarted false]
             Settings_init eq_refl).
  reflexivity.
Defined.

Lemma settings_outcome_witness :
  serverStarted Settings_init = false
  /\ serverStarted
       (run_calls [DoSettingsSet true; DoSetServerStarted false;
                   DoSetServerStarted true; DoSettingsSet false]
          Settings_init) = true
  /\ kickOnLogin
       (run_calls [DoSettingsSet true; DoSetServerStarted false;
                   DoSetServerStarted true; DoSettingsSet false]
          Settings_init) = true.
Proof.
  split; [reflexivity|].
  exact (settings_outcome
           [DoSettingsSet true; DoSetServerStarted false;
            DoSetServerStarted true; DoSettingsSet false]
           Settings_init eq_refl).
Defined.

Lemma Login_outcomes_witness :
  Login false "" (-5) false None demo_world
  = Ok (User_zero, Some (errors_New "users.Login() requires a user name"))
      demo_world
  /\ Login false "bob" (-5) false None demo_world
     = Ok (User_zero,
           Some (errors_New
                   "users.Login() requires a database ID (or -1 for no ID)"))
         demo_world
  /\ Login false "bob" 4 false None demo_world
     = Ok (User_zero, Some (errors_New "users.Login() requires a socket"))
         demo_world
  /\ Login false "alice" 4 false (Some 5%positive) demo_world
     = Ok (User_zero, Some (AlreadyLoggedIn "alice")) demo_world
  /\ exists w' : World,
       Login false "bob" 4 false (Some 5%positive) demo_world
       = Ok (mkUser "bob" 4 false "" 0 (Some 5%positive), None) w'.
Proof.
  split; [|split; [|split; [|split]]].
  - apply (Login_outcomes false demo_world "" (-5) false None). reflexivity.
  - apply (Login_outcomes false demo_world "bob" (-5) false None);
      [discriminate | lia].
  - apply (Login_outcomes false demo_world "bob" 4 false None);
      [discriminate | lia | reflexivity].
  - apply (Login_outcomes false demo_world "alice" 4 false (Some 5%positive));
      [discriminate | lia | discriminate | exists 1%positive; reflexivity].
  - destruct (Login_outcomes false demo_world "bob" 4 false (Some 5%positive))
      as (_ & _ & _ & _ & Hok).
    destruct (Hok ltac:(discriminate) ltac:(lia) ltac:(discriminate) eq_refl)
      as (w' & HL & _).
    exists w'. exact HL.
Defined.

Lemma loginUser_counter_witness :
  users demo_world_full !! "alice" = None
  /\ - 2 ^ 63 <= userCount demo_world_full < 2 ^ 63
  /\ exists (out : list iface) (w' : World),
       Execute loginUser
         [I_string "alice"; I_int64 7; I_bool false; I_Conn (Some 1%positive)]
         demo_world_full = Ok out w'
       /\ userCount w' = - 2 ^ 63.
Proof.
  assert (E : users demo_world_full !! "alice" = None) by reflexivity.
  assert (Hr : - 2 ^ 63 <= userCount demo_world_full < 2 ^ 63)
    by (simpl; lia).
  split; [exact E|]. split; [exact Hr|].
  destruct (loginUser_counter demo_world_full "alice" 7 false
              (Some 1%positive) E Hr) as (out & w' & Hex & _ & _ & Hmax).
  exists out, w'. split; [exact Hex|]. apply Hmax. reflexivity.
Defined.

Lemma step_keeps_wf_witness :
  wf demo_world
  /\ exists w' : World, step demo_world w' /\ wf w'.
Proof.
  split; [exact wf_demo_world|].
  eexists ?[wx]. assert (Hs : step demo_world ?wx).
  { apply (step_Leave 2%positive None). vm_compute. reflexivity. }
  split; [exact Hs|]. exact (step_keeps_wf _ _ Hs wf_demo_world).
Defined.

Lemma step_changes_rooms_only_witness :
  heap demo_world !! 1%positive = Some demo_alice
  /\ exists w' : World,
       step demo_world w'
       /\ exists u' : User,
            heap w' !! 1%positive = Some u' /\ name u' = "alice"
            /\ databaseID u' = 7 /\ socket u' = Some 1%positive.
Proof.
  assert (Hp : heap demo_world !! 1%positive = Some demo_alice) by reflexivity.
  split; [exact Hp|].
  eexists ?[wx]. assert (Hs : step demo_world ?wx).
  { apply (step_Join 2%positive demo_arena None). vm_compute. reflexivity. }
  split; [exact Hs|].
  destruct (step_changes_rooms_only _ _ _ _ Hs Hp)
    as (u' & Hu & Hn & Hd & _ & _ & Hsock).
  exists u'. repeat split; trivial.
Defined.

Lemma registry_shape_kept_witness :
  exists w' : World,
    Join 2%positive demo_arena demo_world_arena
    = Ok (Some (errors_New "already a member")) w'
    /\ users w' = users demo_world_arena
    /\ userCount w' = userCount demo_world_arena.
Proof.
  eexists ?[wx].
  assert (HJ : Join 2%positive demo_arena demo_world_arena
               = Ok (Some (errors_New "already a member")) ?wx).
  { vm_compute. reflexivity. }
  split; [exact HJ|].
  exact (proj1 (proj2 (registry_shape_kept demo_world_arena _)) _ _ _ HJ).
Defined.

Lemma reachable_registry_inv_witness :
  exists w' : World,
    Login false "alice" 7 true (Some 1%positive) demo_empty
    = Ok (mkUser "alice" (-1) true "" 0 (Some 1%positive), None) w'
    /\ reachable w' /\ registry_inv w'.
Proof.
  eexists ?[wx].
  assert (HL : Login false "alice" 7 true (Some 1%positive) demo_empty
               = Ok (mkUser "alice" (-1) true "" 0 (Some 1%positive), None)
                   ?wx).
  { vm_compute. reflexivity. }
  split; [exact HL|].
  assert (Hr : reachable _)
    by exact (reach_step _ _ (reach_init ([] : RoomsState))
                (step_Login _ _ _ _ _ _ _ _ HL)).
  split; [exact Hr|]. exact (reachable_registry_inv _ Hr).
Defined.

Lemma Leave_logged_out_witness :
  heap demo_world_stale !! 2%positive = Some demo_alice
  /\ users demo_world_stale !! name demo_alice = None
  /\ exists w' : World,
       Leave 2%positive demo_world_stale
       = Ok (Some (NotLoggedIn "alice")) w'
       /\ heap w' !! 2%positive = Some demo_alice
       /\ roomsState w' = [].
Proof.
  assert (Hp : heap demo_world_stale !! 2%positive = Some demo_alice)
    by reflexivity.
  assert (E : users demo_world_stale !! name demo_alice = None)
    by reflexivity.
  split; [exact Hp|]. split; [exact E|].
  destruct (Leave_logged_out demo_world_stale 2%positive demo_alice Hp E)
    as [_ Hgo].
  eexists. split.
  - exact (Hgo ltac:(discriminate) [("lobby", "alice")] [] demo_lobby
             eq_refl eq_refl).
  - split; reflexivity.
Defined.

Lemma Join_logged_out_witness :
  heap demo_world_stale !! 2%positive = Some demo_alice
  /\ users demo_world_stale !! name demo_alice = None
  /\ room demo_alice <> Room_Name demo_arena
  /\ exists w' : World,
       Join 2%positive demo_arena demo_world_stale
       = Ok (Some (NotLoggedIn "alice")) w'
       /\ heap w' = heap demo_world_stale.
Proof.
  assert (Hp : heap demo_world_stale !! 2%positive = Some demo_alice)
    by reflexivity.
  assert (E : users demo_world_stale !! name demo_alice = None)
    by reflexivity.
  assert (Hr : room demo_alice <> Room_Name demo_arena) by discriminate.
  split; [exact Hp|]. split; [exact E|]. split; [exact Hr|].
  destruct (Join_logged_out demo_world_stale 2%positive demo_arena demo_alice
              Hp E Hr) as (w' & cs & HJ & Hh & _).
  exists w'. split; [exact HJ | exact Hh].
Defined.

Lemma public_functions_return_witness :
  wf demo_world_two
  /\ (exists a w', Kick "bob" demo_world_two = Ok a w')
  /\ (exists a w', Join 2%positive demo_arena demo_world_two = Ok a w').
Proof.
  split; [exact wf_demo_world_two|].
  destruct (public_functions_return demo_world_two wf_demo_world_two)
    as (_ & _ & HK & HU).
  split; [apply HK|].
  apply (HU 2%positive demo_alice eq_refl).
Defined.

Lemma Login_then_Get_witness :
  String.length "bob" <> 0%nat /\ -1 <= 4
  /\ Some 5%positive <> (None : Conn)
  /\ users demo_world !! "bob" = None
  /\ exists (rec : User) (w' : World),
       Login false "bob" 4 false (Some 5%positive) demo_world
       = Ok (rec, None) w'
       /\ Get "bob" w' = Ok (rec, None) w'.
Proof.
  assert (Hn : String.length "bob" <> 0%nat) by discriminate.
  assert (Hd : -1 <= 4) by lia.
  assert (Hs : Some 5%positive <> (None : Conn)) by discriminate.
  assert (E : users demo_world !! "bob" = None) by reflexivity.
  repeat (split; [assumption|]).
  exact (Login_then_Get false demo_world "bob" 4 false (Some 5%positive)
           Hn Hd Hs E).
Defined.

Lemma Login_Kick_Login_witness :
  String.length "bob" <> 0%nat /\ -1 <= 4
  /\ Some 5%positive <> (None : Conn)
  /\ users demo_world !! "bob" = None
  /\ exists (rec : User) (w1 w2 : World),
       Login false "bob" 4 false (Some 5%positive) demo_world
       = Ok (rec, None) w1
       /\ Kick "bob" w1 = Ok None w2
       /\ users w2 = users demo_world.
Proof.
  assert (Hn : String.length "bob" <> 0%nat) by discriminate.
  assert (Hd : -1 <= 4) by lia.
  assert (Hs : Some 5%positive <> (None : Conn)) by discriminate.
  assert (E : users demo_world !! "bob" = None) by reflexivity.
  repeat (split; [assumption|]).
  destruct (Login_Kick_Login false demo_world "bob" 4 false (Some 5%positive)
              Hn Hd Hs E) as (rec & w1 & w2 & HL & HK & Hu & _).
  exists rec, w1, w2. repeat split; trivial.
Defined.

Lemma Kick_uses_recorded_room_witness :
  wf demo_world /\ String.length "alice" <> 0%nat
  /\ session demo_world "alice" = Some demo_alice
  /\ exists w' : World,
       Kick "alice" demo_world = Ok None w'
       /\ calls w' = [CallGet "lobby"; CallRemoveUser "lobby" "alice"]
       /\ roomsState w' = [].
Proof.
  assert (Hn : String.length "alice" <> 0%nat) by discriminate.
  assert (Hs : session demo_world "alice" = Some demo_alice) by reflexivity.
  split; [exact wf_demo_world|]. split; [exact Hn|]. split; [exact Hs|].
  destruct (Kick_uses_recorded_room demo_world "alice" demo_alice
              wf_demo_world Hn Hs) as (w' & HK & _ & Hin).
  destruct (Hin ltac:(discriminate) [("lobby", "alice")] demo_lobby None
              eq_refl) as [_ Hok].
  destruct (Hok eq_refl [] None eq_refl) as [Hc Hr].
  exists w'. repeat split; trivial.
Defined.

(** alice's [Join] into the arena fails in [AddUser]; trying again is
    refused as already-in-room. *)
Lemma Join_retry_refused_witness :
  exists w' : World,
    Join 2%positive demo_arena demo_world_arena
    = Ok (Some (errors_New "already a member")) w'
    /\ RoomName 2%positive w' = Ok "arena" w'
    /\ Join 2%positive demo_arena w'
       = Ok (Some (AlreadyInRoom "alice" "arena")) w'.
Proof.
  eexists ?[wx].
  assert (HJ : Join 2%positive demo_arena demo_world_arena
               = Ok (Some (errors_New "already a member")) ?wx).
  { vm_compute. reflexivity. }
  split; [exact HJ|].
  exact (Join_retry_refused demo_world_arena _ 2%positive 1%positive
           demo_arena demo_alice demo_alice _ eq_refl eq_refl eq_refl
           ltac:(discriminate) HJ).
Defined.

Lemma Join_then_Leave_witness :
  exists w' w'' : World,
    Join 2%positive demo_arena demo_world = Ok None w'
    /\ Leave 2%positive w' = Ok None w''
    /\ session w'' "alice" = Some (set_room "" demo_alice)
    /\ RoomName 2%positive w'' = Ok "" w''.
Proof.
  eexists ?[wx].
  assert (HJ : Join 2%positive demo_arena demo_world = Ok None ?wx).
  { vm_compute. reflexivity. }
  destruct (Join_then_Leave demo_world _ 2%positive 1%positive demo_arena
              demo_arena demo_alice demo_alice None [("arena", "alice")] []
              eq_refl eq_refl eq_refl ltac:(discriminate) ltac:(discriminate)
              HJ eq_refl eq_refl)
    as (w'' & HL & _ & Hs & _ & Hrn).
  exists w''. repeat split; trivial.
Defined.

(** alice moves to the arena; bob's session is what it was. *)
Lemma room_changes_touch_own_session_only_witness :
  wf demo_world_two
  /\ heap demo_world_two !! 2%positive = Some demo_alice
  /\ "bob" <> name demo_alice
  /\ exists w' : World,
       Join 2%positive demo_arena demo_world_two = Ok None w'
       /\ session w' "bob" = Some demo_bob.
Proof.
  assert (Hp : heap demo_world_two !! 2%positive = Some demo_alice)
    by reflexivity.
  assert (Hk : "bob" <> name demo_alice) by discriminate.
  split; [exact wf_demo_world_two|]. split; [exact Hp|]. split; [exact Hk|].
  eexists ?[wx].
  assert (HJ : Join 2%positive demo_arena demo_world_two = Ok None ?wx).
  { vm_compute. reflexivity. }
  split; [exact HJ|].
  rewrite (proj1 (room_changes_touch_own_session_only demo_world_two _
                    2%positive demo_alice "bob" wf_demo_world_two Hp Hk)
             _ _ HJ).
  reflexivity.
Defined.
